(** * architecture.py: shape and value semantics of the sign-language glove model

    A shallow embedding of [src/architecture.py] (the classes [TemporalCNN],
    [SelfAttention] and [LSTMModel]) together with the [torch.nn] layers they
    instantiate.

    Conventions of the embedding.
    - A tensor is a shape (list of axis lengths) and an indexing function.
      Scalars are real numbers: float32 arithmetic is idealised, so rounding,
      overflow and NaN are outside the model.
    - The [torch.nn] layers follow the library's documented shape rules and
      the checks it makes before computing: channel and feature counts,
      a kernel no longer than the padded sequence, a pooled length of at
      least one, more than one value per channel when normalising in
      training mode.  A batch of length 0 passes these checks.
    - Python exceptions raised by the tensor library are values [Err e].
    - Module attributes that a forward call can change (parameters and
      buffers) are record fields; a call that mutates them returns the new
      record, also when it raises.
    - [LSTMModel.forward] starts with [x.permute(0, 2, 1)], which accepts
      rank-3 tensors only, so every layer below it sees three axes.  The
      layers of the extractor, which [TemporalCNN.forward] exposes on
      their own, also take their rank-2 forms.  [Linear], [LSTM] and
      [matmul] are modelled at rank 3, the only rank at which
      [SelfAttention.forward] gets past its [permute(0, 2, 1)].  A layer
      given a rank it does not take answers [RankMismatch]. *)

From Stdlib Require Import Reals Lra Lia List Arith Bool.
From Stdlib Require Import FunctionalExtensionality.
Import ListNotations.

Set Implicit Arguments.

(** ** Errors and results *)

Inductive torch_error : Type :=
| RankMismatch (expected got : nat)
| ChannelMismatch (expected got : nat)
| KernelTooLarge (padded_length kernel : nat)
| OutputTooSmall (input_length : nat)
| FeatureMismatch (expected got : nat)
| MatmulMismatch (left right : list nat)
| SingleValuePerChannel.

(** Every error but the rank one reports sizes that disagree between a
    tensor and a layer (or between two tensors). *)
Definition is_shape_mismatch (e : torch_error) : bool :=
  match e with
  | RankMismatch _ _ => false
  | SingleValuePerChannel => false
  | _ => true
  end.

Inductive result (A : Type) : Type :=
| Ok (a : A)
| Err (e : torch_error).
Arguments Err {A} e.

Definition is_ok {A} (r : result A) : bool :=
  match r with Ok _ => true | Err _ => false end.

Definition rbind {A B} (r : result A) (k : A -> result B) : result B :=
  match r with
  | Ok a => k a
  | Err e => Err e
  end.

Definition rmap {A B} (f : A -> B) (r : result A) : result B :=
  rbind r (fun a => Ok (f a)).

(** ** Calls on an object with mutable attributes

    [M S A] is a method of an object whose attributes are [S]: it returns a
    value or raises, and leaves the attributes in some state either way. *)

Definition M (S A : Type) : Type := S -> result A * S.

Definition ret {S A} (a : A) : M S A := fun s => (Ok a, s).

Definition bind {S A B} (m : M S A) (k : A -> M S B) : M S B :=
  fun s =>
    match m s with
    | (Ok a, s') => k a s'
    | (Err e, s') => (Err e, s')
    end.

(** A call that only reads the attributes. *)
Definition call {S A} (f : S -> result A) : M S A := fun s => (f s, s).

(** A call on the sub-module stored in one attribute. *)
Definition zoom {S S' A} (get : S -> S') (set : S' -> S -> S) (m : M S' A)
  : M S A :=
  fun s => let (r, s') := m (get s) in (r, set s' s).

Declare Scope result_scope.
Delimit Scope result_scope with result.
Notation "x <- r ;; k" := (rbind r (fun x => k))
  (at level 61, r at next level, right associativity) : result_scope.

Declare Scope method_scope.
Delimit Scope method_scope with method.
Notation "x <- m ;; k" := (bind m (fun x => k))
  (at level 61, m at next level, right associativity) : method_scope.
Notation "' p <- m ;; k" := (bind m (fun x => match x with p => k end))
  (at level 61, p pattern, m at next level, right associativity) : method_scope.

(** ** Tensors *)

Record Tensor : Type := mkTensor {
  shape : list nat;
  data : list nat -> R
}.

Definition at3 (x : Tensor) (i j k : nat) : R := data x [i; j; k].

Definition tensor3 (d0 d1 d2 : nat) (f : nat -> nat -> nat -> R) : Tensor :=
  {| shape := [d0; d1; d2];
     data := fun idx => match idx with
                        | [i; j; k] => f i j k
                        | _ => 0%R
                        end |}.

Definition at2 (x : Tensor) (i j : nat) : R := data x [i; j].

Definition tensor2 (d0 d1 : nat) (f : nat -> nat -> R) : Tensor :=
  {| shape := [d0; d1];
     data := fun idx => match idx with
                        | [i; j] => f i j
                        | _ => 0%R
                        end |}.

(** [x.unsqueeze(0)] and [y.squeeze(0)], between an unbatched [[C; L]]
    sequence and a batch of one. *)
Definition unsqueeze_0 (x : Tensor) : Tensor :=
  match shape x with
  | [d0; d1] => tensor3 1 d0 d1 (fun _ i j => at2 x i j)
  | _ => x
  end.

Definition squeeze_0 (y : Tensor) : Tensor :=
  match shape y with
  | [_; d1; d2] => tensor2 d1 d2 (fun i j => at3 y 0 i j)
  | _ => y
  end.

(** [x.unsqueeze(2)] and [y.squeeze(2)], between a [[N; C]] batch of
    vectors and a batch of sequences of one step. *)
Definition unsqueeze_2 (x : Tensor) : Tensor :=
  match shape x with
  | [d0; d1] => tensor3 d0 d1 1 (fun i j _ => at2 x i j)
  | _ => x
  end.

Definition squeeze_2 (y : Tensor) : Tensor :=
  match shape y with
  | [d0; d1; _] => tensor2 d0 d1 (fun i j => at3 y i j 0)
  | _ => y
  end.

Fixpoint sum_n (n : nat) (f : nat -> R) : R :=
  match n with
  | O => 0%R
  | S k => (sum_n k f + f k)%R
  end.

(** Maximum of [f 0 .. f k]. *)
Fixpoint max_upto (k : nat) (f : nat -> R) : R :=
  match k with
  | O => f O
  | S k' => Rmax (max_upto k' f) (f (S k'))
  end.

(** [x.permute(0, 2, 1)] *)
Definition permute_0_2_1 (x : Tensor) : result Tensor :=
  match shape x with
  | [d0; d1; d2] => Ok (tensor3 d0 d2 d1 (fun i j k => at3 x i k j))
  | s => Err (RankMismatch 3 (length s))
  end.

(** [torch.matmul] of two rank-3 tensors with the same batch length. *)
Definition matmul (a b : Tensor) : result Tensor :=
  match shape a, shape b with
  | [ba; n; m], [bb; m'; p] =>
      if (ba =? bb) && (m =? m')
      then Ok (tensor3 ba n p
                 (fun i r c => sum_n m (fun k => (at3 a i r k * at3 b i k c)%R)))
      else Err (MatmulMismatch (shape a) (shape b))
  | _, _ => Err (RankMismatch 3 (length (shape a)))
  end.

(** [t /= c] on a freshly computed tensor. *)
Definition div_scalar (x : Tensor) (c : R) : Tensor :=
  {| shape := shape x; data := fun idx => (data x idx / c)%R |}.

(** [nn.functional.softmax(x, dim=-1)] *)
Definition softmax_last (x : Tensor) : result Tensor :=
  match shape x with
  | [d0; d1; d2] =>
      Ok (tensor3 d0 d1 d2
            (fun i j k => (exp (at3 x i j k)
                           / sum_n d2 (fun k' => exp (at3 x i j k')))%R))
  | s => Err (RankMismatch 3 (length s))
  end.

(** [nn.ReLU(inplace=True)] *)
Definition relu (x : Tensor) : Tensor :=
  {| shape := shape x; data := fun idx => Rmax 0 (data x idx) |}.

(** ** torch.nn layers *)

Module Conv1d.
(** [nn.Conv1d] with dilation 1, one group and zero padding.  It takes a
    batch [[B; C; L]] or one unbatched sequence [[C; L]]. *)
Record t : Type := mk {
  in_channels : nat;
  out_channels : nat;
  kernel_size : nat;
  stride : nat;
  padding : nat;
  weight : nat -> nat -> nat -> R;
  bias : nat -> R
}.

(** The input at position [p] of the zero-padded sequence. *)
Definition padded (c : t) (x : Tensor) (len b ch p : nat) : R :=
  if (padding c <=? p) && (p - padding c <? len)
  then at3 x b ch (p - padding c)
  else 0%R.

Definition out_length (c : t) (len : nat) : nat :=
  (len + 2 * padding c - kernel_size c) / stride c + 1.

(** The convolution of a batch of [b] sequences. *)
Definition batched (c : t) (x : Tensor) (b ch len : nat) : result Tensor :=
  if negb (ch =? in_channels c)
  then Err (ChannelMismatch (in_channels c) ch)
  else if len + 2 * padding c <? kernel_size c
  then Err (KernelTooLarge (len + 2 * padding c) (kernel_size c))
  else Ok (tensor3 b (out_channels c) (out_length c len)
             (fun i o p =>
                (bias c o
                 + sum_n (in_channels c) (fun ci =>
                     sum_n (kernel_size c) (fun k =>
                       weight c o ci k
                       * padded c x len i ci (p * stride c + k))))%R)).

Definition forward (c : t) (x : Tensor) : result Tensor :=
  match shape x with
  | [b; ch; len] => batched c x b ch len
  | [ch; len] => rmap squeeze_0 (batched c (unsqueeze_0 x) 1 ch len)
  | s => Err (RankMismatch 3 (length s))
  end.
End Conv1d.

Module MaxPool1d.
(** [nn.MaxPool1d] with no padding, dilation 1 and floor rounding, on a
    batch [[B; C; L]] or one unbatched sequence [[C; L]]. *)
Record t : Type := mk {
  kernel_size : nat;
  stride : nat
}.

Definition out_length (p : t) (len : nat) : nat :=
  if len <? kernel_size p then 0 else (len - kernel_size p) / stride p + 1.

Definition batched (p : t) (x : Tensor) (b ch len : nat) : result Tensor :=
  if out_length p len =? 0
  then Err (OutputTooSmall len)
  else Ok (tensor3 b ch (out_length p len)
             (fun i c q =>
                max_upto (kernel_size p - 1)
                  (fun k => at3 x i c (q * stride p + k)))).

Definition forward (p : t) (x : Tensor) : result Tensor :=
  match shape x with
  | [b; ch; len] => batched p x b ch len
  | [ch; len] => rmap squeeze_0 (batched p (unsqueeze_0 x) 1 ch len)
  | s => Err (RankMismatch 3 (length s))
  end.
End MaxPool1d.

Module BatchNorm1d.
(** [nn.BatchNorm1d] with [affine=True] and [track_running_stats=True]
    (the defaults), on a batch of sequences [[B; C; L]] or a batch of
    vectors [[N; C]].  [running_mean], [running_var] and
    [num_batches_tracked] are its buffers, [training] is the mode flag
    set by [train()] and [eval()]. *)
Record t : Type := mk {
  num_features : nat;
  eps : R;
  momentum : R;
  weight : nat -> R;
  bias : nat -> R;
  running_mean : nat -> R;
  running_var : nat -> R;
  num_batches_tracked : nat;
  training : bool
}.

Definition batch_mean (x : Tensor) (b len c : nat) : R :=
  (sum_n b (fun i => sum_n len (fun p => at3 x i c p)) / INR (b * len))%R.

Definition sq_dev (x : Tensor) (b len c : nat) : R :=
  sum_n b (fun i => sum_n len (fun p =>
    ((at3 x i c p - batch_mean x b len c)
     * (at3 x i c p - batch_mean x b len c))%R)).

(** Biased variance, used to normalise the batch. *)
Definition batch_var (x : Tensor) (b len c : nat) : R :=
  (sq_dev x b len c / INR (b * len))%R.

(** Unbiased variance, used to update [running_var]. *)
Definition batch_var_unbiased (x : Tensor) (b len c : nat) : R :=
  (sq_dev x b len c / (INR (b * len) - 1))%R.

Definition normalize (bn : t) (mean var : nat -> R) (x : Tensor)
    (b ch len : nat) : Tensor :=
  tensor3 b ch len (fun i c p =>
    ((at3 x i c p - mean c) / sqrt (var c + eps bn) * weight bn c
     + bias bn c)%R).

(** [self.num_batches_tracked.add_(1)] *)
Definition tick (bn : t) : t :=
  mk (num_features bn) (eps bn) (momentum bn) (weight bn) (bias bn)
     (running_mean bn) (running_var bn) (S (num_batches_tracked bn))
     (training bn).

(** The exponential moving average of the batch statistics. *)
Definition update_stats (bn : t) (x : Tensor) (b len : nat) : t :=
  mk (num_features bn) (eps bn) (momentum bn) (weight bn) (bias bn)
     (fun c => ((1 - momentum bn) * running_mean bn c
                + momentum bn * batch_mean x b len c)%R)
     (fun c => ((1 - momentum bn) * running_var bn c
                + momentum bn * batch_var_unbiased x b len c)%R)
     (num_batches_tracked bn) (training bn).

(** A batch of [b] sequences.  The counter is incremented before the
    functional batch norm checks its input, so it moves even when that
    check raises.  A tensor without entries is returned as it is, before
    the channel count is looked at and with the running statistics left
    alone; having no entries, its indexing function is immaterial. *)
Definition batched (x : Tensor) (b ch len : nat) : M t Tensor :=
  fun bn =>
    if training bn then
      let bn1 := tick bn in
      if b * len =? 1 then (Err SingleValuePerChannel, bn1)
      else if b * ch * len =? 0
      then (Ok (normalize bn (batch_mean x b len) (batch_var x b len)
                  x b ch len), bn1)
      else if negb (ch =? num_features bn)
      then (Err (ChannelMismatch (num_features bn) ch), bn1)
      else (Ok (normalize bn (batch_mean x b len) (batch_var x b len)
                  x b ch len),
            update_stats bn1 x b len)
    else
      if b * ch * len =? 0
      then (Ok (normalize bn (running_mean bn) (running_var bn)
                  x b ch len), bn)
      else if negb (ch =? num_features bn)
      then (Err (ChannelMismatch (num_features bn) ch), bn)
      else (Ok (normalize bn (running_mean bn) (running_var bn)
                  x b ch len), bn).

Definition forward (x : Tensor) : M t Tensor :=
  fun bn =>
    match shape x with
    | [b; ch; len] => batched x b ch len bn
    | [n; ch] =>
        let (r, bn') := batched (unsqueeze_2 x) n ch 1 bn in
        (rmap squeeze_2 r, bn')
    | s => (Err (RankMismatch 3 (length s)), bn)
    end.

(** [train(mode)] *)
Definition train (mode : bool) (bn : t) : t :=
  mk (num_features bn) (eps bn) (momentum bn) (weight bn) (bias bn)
     (running_mean bn) (running_var bn) (num_batches_tracked bn) mode.

(** A freshly constructed layer. *)
Definition init (n : nat) : t :=
  mk n (1 / 100000)%R (1 / 10)%R (fun _ => 1%R) (fun _ => 0%R)
     (fun _ => 0%R) (fun _ => 1%R) 0 true.

(** Everything but the three buffers is the same in [bn] and [bn']. *)
Definition same_parameters (bn bn' : t) : Prop :=
  num_features bn' = num_features bn
  /\ eps bn' = eps bn
  /\ momentum bn' = momentum bn
  /\ weight bn' = weight bn
  /\ bias bn' = bias bn
  /\ training bn' = training bn.

(** What a successful call leaves of a layer in training mode that was
    given a batch of [b] sequences: the counter has moved and, unless the
    batch had no entries, the running statistics are the moving average
    with the statistics of that batch. *)
Definition trained_on (bn : t) (x : Tensor) (b ch len : nat) : t :=
  if b * ch * len =? 0 then tick bn else update_stats (tick bn) x b len.

(** What a successful call on [x] leaves of a layer. *)
Definition after_call (bn : t) (x : Tensor) : t :=
  if training bn then
    match shape x with
    | [b; ch; len] => trained_on bn x b ch len
    | [n; ch] => trained_on bn (unsqueeze_2 x) n ch 1
    | _ => bn
    end
  else bn.
End BatchNorm1d.

Module Linear.
(** [nn.Linear] with bias. *)
Record t : Type := mk {
  in_features : nat;
  out_features : nat;
  weight : nat -> nat -> R;
  bias : nat -> R
}.

Definition forward (l : t) (x : Tensor) : result Tensor :=
  match shape x with
  | [b; n; f] =>
      if negb (f =? in_features l)
      then Err (FeatureMismatch (in_features l) f)
      else Ok (tensor3 b n (out_features l)
                 (fun i j o =>
                    (sum_n (in_features l)
                       (fun k => at3 x i j k * weight l o k)
                     + bias l o)%R))
  | s => Err (RankMismatch 3 (length s))
  end.
End Linear.

Module LSTM.
(** [nn.LSTM] without dropout and without projections.  The four gates
    are stacked in the weight rows in the order input, forget, cell,
    output. *)
Record direction : Type := mk_direction {
  weight_ih : nat -> nat -> R;
  weight_hh : nat -> nat -> R;
  bias_ih : nat -> R;
  bias_hh : nat -> R
}.

Record t : Type := mk {
  input_size : nat;
  hidden_size : nat;
  num_layers : nat;
  batch_first : bool;
  bidirectional : bool;
  weights : nat -> bool -> direction   (* layer, reverse direction? *)
}.

Definition vec : Type := nat -> R.
Definition sequence : Type := nat -> vec.

Definition sigmoid (z : R) : R := (1 / (1 + exp (- z)))%R.

Definition cell (w : direction) (h_dim in_dim : nat) (x : vec)
    (hc : vec * vec) : vec * vec :=
  let (h, c) := hc in
  let gate r :=
    (sum_n in_dim (fun k => weight_ih w r k * x k) + bias_ih w r
     + sum_n h_dim (fun k => weight_hh w r k * h k) + bias_hh w r)%R in
  let in_gate j := sigmoid (gate j) in
  let forget_gate j := sigmoid (gate (h_dim + j)) in
  let cell_gate j := tanh (gate (2 * h_dim + j)) in
  let out_gate j := sigmoid (gate (3 * h_dim + j)) in
  let c' j := (forget_gate j * c j + in_gate j * cell_gate j)%R in
  (fun j => (out_gate j * tanh (c' j))%R, c').

(** The state after the first [n] steps, visiting time [order k] at
    step [k], from the zero state. *)
Fixpoint run (w : direction) (h_dim in_dim : nat) (xs : sequence)
    (order : nat -> nat) (n : nat) : vec * vec :=
  match n with
  | O => (fun _ => 0%R, fun _ => 0%R)
  | S k => cell w h_dim in_dim (xs (order k)) (run w h_dim in_dim xs order k)
  end.

Definition num_directions (l : t) : nat :=
  if bidirectional l then 2 else 1.

Definition layer_input_dim (l : t) (layer : nat) : nat :=
  if layer =? 0 then input_size l else num_directions l * hidden_size l.

Definition order_of (len : nat) (reverse : bool) (k : nat) : nat :=
  if reverse then len - 1 - k else k.

Definition final (l : t) (len layer : nat) (reverse : bool) (xs : sequence)
  : vec * vec :=
  run (weights l layer reverse) (hidden_size l) (layer_input_dim l layer)
      xs (order_of len reverse) len.

Definition layer_output (l : t) (len layer : nat) (xs : sequence)
  : sequence :=
  fun t j =>
    if bidirectional l && (hidden_size l <=? j)
    then fst (run (weights l layer true) (hidden_size l)
                (layer_input_dim l layer) xs (order_of len true) (len - t))
             (j - hidden_size l)
    else fst (run (weights l layer false) (hidden_size l)
                (layer_input_dim l layer) xs (order_of len false) (S t)) j.

(** The output sequence of the first [n] layers. *)
Fixpoint stack (l : t) (len n : nat) (xs : sequence) : sequence :=
  match n with
  | O => xs
  | S k => layer_output l len k (stack l len k xs)
  end.

(** Returns [(output, (h_n, c_n))]. *)
Definition forward (l : t) (x : Tensor)
  : result (Tensor * (Tensor * Tensor)) :=
  match shape x with
  | [d0; d1; f] =>
      if negb (f =? input_size l)
      then Err (FeatureMismatch (input_size l) f)
      else
        let b := if batch_first l then d0 else d1 in
        let len := if batch_first l then d1 else d0 in
        let xs i : sequence :=
          fun t k => if batch_first l then at3 x i t k else at3 x t i k in
        let width := num_directions l * hidden_size l in
        let out i := stack l len (num_layers l) (xs i) in
        let output :=
          if batch_first l
          then tensor3 b len width (fun i t j => out i t j)
          else tensor3 len b width (fun t i j => out i t j) in
        let nd := num_directions l in
        let fin (pick : vec * vec -> vec) :=
          tensor3 (num_layers l * nd) b (hidden_size l)
            (fun d i j =>
               pick (final l len (d / nd) (d mod nd =? 1)
                       (stack l len (d / nd) (xs i))) j) in
        Ok (output, (fin fst, fin snd))
  | s => Err (RankMismatch 3 (length s))
  end.
End LSTM.

Module Sequential.
(** [nn.Sequential] over the layer classes this program uses. *)
Inductive Layer : Type :=
| LConv1d (c : Conv1d.t)
| LBatchNorm1d (bn : BatchNorm1d.t)
| LReLU
| LMaxPool1d (p : MaxPool1d.t).

Definition layer_forward (x : Tensor) : M Layer Tensor :=
  fun l =>
    match l with
    | LConv1d c => (Conv1d.forward c x, l)
    | LBatchNorm1d bn =>
        let (r, bn') := BatchNorm1d.forward x bn in (r, LBatchNorm1d bn')
    | LReLU => (Ok (relu x), l)
    | LMaxPool1d p => (MaxPool1d.forward p x, l)
    end.

(** [for module in self: input = module(input)] *)
Fixpoint forward (x : Tensor) (layers : list Layer)
  : result Tensor * list Layer :=
  match layers with
  | [] => (Ok x, [])
  | l :: rest =>
      match layer_forward x l with
      | (Ok y, l') => let (r, rest') := forward y rest in (r, l' :: rest')
      | (Err e, l') => (Err e, l' :: rest)
      end
  end.

Definition layer_train (mode : bool) (l : Layer) : Layer :=
  match l with
  | LBatchNorm1d bn => LBatchNorm1d (BatchNorm1d.train mode bn)
  | _ => l
  end.

(** The constructor arguments of a layer, without its tensors. *)
Inductive Kind : Type :=
| KConv1d (in_channels out_channels kernel_size stride padding : nat)
| KBatchNorm1d (num_features : nat)
| KReLU
| KMaxPool1d (kernel_size stride : nat).

Definition kind (l : Layer) : Kind :=
  match l with
  | LConv1d c =>
      KConv1d (Conv1d.in_channels c) (Conv1d.out_channels c)
              (Conv1d.kernel_size c) (Conv1d.stride c) (Conv1d.padding c)
  | LBatchNorm1d bn => KBatchNorm1d (BatchNorm1d.num_features bn)
  | LReLU => KReLU
  | LMaxPool1d p => KMaxPool1d (MaxPool1d.kernel_size p) (MaxPool1d.stride p)
  end.

(** [l'] is [l] up to the buffers of a normalisation layer. *)
Definition layer_frame (l l' : Layer) : Prop :=
  match l, l' with
  | LBatchNorm1d bn, LBatchNorm1d bn' => BatchNorm1d.same_parameters bn bn'
  | _, _ => l' = l
  end.



Definition layer_in_eval (l : Layer) : bool :=
  match l with
  | LBatchNorm1d bn => negb (BatchNorm1d.training bn)
  | _ => true
  end.

(** The [num_batches_tracked] counters, in layer order. *)
Definition batches_tracked (layers : list Layer) : list nat :=
  flat_map (fun l => match l with
                     | LBatchNorm1d bn => [BatchNorm1d.num_batches_tracked bn]
                     | _ => []
                     end) layers.
End Sequential.

(** ** architecture.py *)

Module TemporalCNN.
Import Sequential.

Record t : Type := mk {
  input_size : nat;
  conv_layers : list Layer
}.

(** The randomly initialised tensors of a new instance. *)
Record params : Type := mk_params {
  conv1_weight : nat -> nat -> nat -> R;
  conv1_bias : nat -> R;
  conv2_weight : nat -> nat -> nat -> R;
  conv2_bias : nat -> R
}.

(** [__init__] *)
Definition init (input_size : nat) (w : params) : t :=
  mk input_size
     [ LConv1d (Conv1d.mk input_size 64 3 1 1 (conv1_weight w) (conv1_bias w));
       LBatchNorm1d (BatchNorm1d.init 64);
       LReLU;
       LMaxPool1d (MaxPool1d.mk 2 2);
       LConv1d (Conv1d.mk 64 128 3 1 1 (conv2_weight w) (conv2_bias w));
       LBatchNorm1d (BatchNorm1d.init 128);
       LReLU;
       LMaxPool1d (MaxPool1d.mk 2 2) ].

Definition set_conv_layers (layers : list Layer) (self : t) : t :=
  mk (input_size self) layers.

Definition forward (x : Tensor) : M t Tensor :=
  zoom conv_layers set_conv_layers (Sequential.forward x).

Definition train (mode : bool) (self : t) : t :=
  mk (input_size self) (map (layer_train mode) (conv_layers self)).

(** What [__init__] fixes and no later call changes. *)
Definition architecture (input_size : nat) : list Kind :=
  [ KConv1d input_size 64 3 1 1; KBatchNorm1d 64; KReLU; KMaxPool1d 2 2;
    KConv1d 64 128 3 1 1; KBatchNorm1d 128; KReLU; KMaxPool1d 2 2 ].

Definition configured (self : t) : Prop :=
  map kind (conv_layers self) = architecture (input_size self).

Definition in_eval (self : t) : Prop :=
  forallb layer_in_eval (conv_layers self) = true.

(** [self'] differs from [self] at most in normalisation buffers. *)
Definition frame (self self' : t) : Prop :=
  input_size self' = input_size self
  /\ Forall2 layer_frame (conv_layers self) (conv_layers self').
End TemporalCNN.

Module SelfAttention.
Record t : Type := mk {
  num_features : nat;
  key_matrix : Linear.t;
  query_matrix : Linear.t;
  value_matrix : Linear.t
}.

Record params : Type := mk_params {
  key_weight : nat -> nat -> R;
  key_bias : nat -> R;
  query_weight : nat -> nat -> R;
  query_bias : nat -> R;
  value_weight : nat -> nat -> R;
  value_bias : nat -> R
}.

(** [__init__] *)
Definition init (input_size : nat) (w : params) : t :=
  let num_features := input_size in
  mk num_features
     (Linear.mk num_features num_features (key_weight w) (key_bias w))
     (Linear.mk num_features num_features (query_weight w) (query_bias w))
     (Linear.mk num_features num_features (value_weight w) (value_bias w)).

Local Open Scope result_scope.

Definition forward (self : t) (x : Tensor) : result (Tensor * Tensor) :=
  key_vecs <- Linear.forward (key_matrix self) x ;;
  query_vecs <- Linear.forward (query_matrix self) x ;;
  value_vecs <- Linear.forward (value_matrix self) x ;;
  key_t <- permute_0_2_1 key_vecs ;;
  attn_scores <- matmul query_vecs key_t ;;
  let attn_scores :=
    div_scalar attn_scores (sqrt (INR (num_features self))) in
  attn_weights <- softmax_last attn_scores ;;
  outputs <- matmul attn_weights value_vecs ;;
  Ok (outputs, attn_weights).

Definition linear_is (l : Linear.t) (n_in n_out : nat) : Prop :=
  Linear.in_features l = n_in /\ Linear.out_features l = n_out.

Definition configured (self : t) : Prop :=
  linear_is (key_matrix self) (num_features self) (num_features self)
  /\ linear_is (query_matrix self) (num_features self) (num_features self)
  /\ linear_is (value_matrix self) (num_features self) (num_features self).
End SelfAttention.

Module LSTMModel.
Record t : Type := mk {
  input_size : nat;
  output_size : nat;
  lstm_input_dim : nat;
  lstm_hidden_dim : nat;
  num_lstm_layers : nat;
  bidir_lstm : bool;
  conv_layer : TemporalCNN.t;
  lstm_layer : LSTM.t;
  lstm_output_dim : nat;
  attention : SelfAttention.t;
  linear_layer : Linear.t
}.

Record params : Type := mk_params {
  conv_params : TemporalCNN.params;
  lstm_weights : nat -> bool -> LSTM.direction;
  attention_params : SelfAttention.params;
  linear_weight : nat -> nat -> R;
  linear_bias : nat -> R
}.

(** [__init__] *)
Definition init (output_size input_size : nat) (w : params) : t :=
  let lstm_input_dim := 128 in
  let lstm_hidden_dim := 128 in
  let num_lstm_layers := 3 in
  let bidir_lstm := true in
  let lstm_output_dim :=
    if bidir_lstm then lstm_hidden_dim * 2 else lstm_hidden_dim in
  mk input_size output_size lstm_input_dim lstm_hidden_dim num_lstm_layers
     bidir_lstm
     (TemporalCNN.init input_size (conv_params w))
     (LSTM.mk lstm_input_dim lstm_hidden_dim num_lstm_layers true bidir_lstm
        (lstm_weights w))
     lstm_output_dim
     (SelfAttention.init lstm_output_dim (attention_params w))
     (Linear.mk lstm_output_dim output_size (linear_weight w)
        (linear_bias w)).

Definition set_conv_layer (c : TemporalCNN.t) (self : t) : t :=
  mk (input_size self) (output_size self) (lstm_input_dim self)
     (lstm_hidden_dim self) (num_lstm_layers self) (bidir_lstm self)
     c (lstm_layer self) (lstm_output_dim self) (attention self)
     (linear_layer self).

Local Open Scope method_scope.

Definition forward (x : Tensor) : M t Tensor :=
  x <- call (fun _ => permute_0_2_1 x) ;;
  x <- zoom conv_layer set_conv_layer (TemporalCNN.forward x) ;;
  x <- call (fun _ => permute_0_2_1 x) ;;
  '(outputs, (final_hidden, final_cell)) <-
      call (fun self => LSTM.forward (lstm_layer self) x) ;;
  '(outputs, attn_weights) <-
      call (fun self => SelfAttention.forward (attention self) outputs) ;;
  outputs <- call (fun self => Linear.forward (linear_layer self) outputs) ;;
  ret outputs.

(** [train(mode)]: the mode flag only matters to the normalisation
    layers, the recurrent stage has no dropout. *)
Definition train (mode : bool) (self : t) : t :=
  set_conv_layer (TemporalCNN.train mode (conv_layer self)) self.

Definition eval (self : t) : t := train false self.

(** What [__init__] fixes and no later call changes. *)
Record configured (self : t) : Prop := {
  cfg_conv : TemporalCNN.configured (conv_layer self);
  cfg_conv_input : TemporalCNN.input_size (conv_layer self) = input_size self;
  cfg_lstm_input : LSTM.input_size (lstm_layer self) = 128;
  cfg_lstm_hidden : LSTM.hidden_size (lstm_layer self) = 128;
  cfg_lstm_layers : LSTM.num_layers (lstm_layer self) = 3;
  cfg_lstm_batch_first : LSTM.batch_first (lstm_layer self) = true;
  cfg_lstm_bidir : LSTM.bidirectional (lstm_layer self) = true;
  cfg_attention : SelfAttention.configured (attention self);
  cfg_attention_width : SelfAttention.num_features (attention self) = 256;
  cfg_linear_in : Linear.in_features (linear_layer self) = 256;
  cfg_linear_out : Linear.out_features (linear_layer self) = output_size self
}.

Definition in_eval (self : t) : Prop := TemporalCNN.in_eval (conv_layer self).

(** [self'] differs from [self] at most in the normalisation buffers of
    the extractor: every other attribute is the same object. *)
Definition frame (self self' : t) : Prop :=
  exists cnn', self' = set_conv_layer cnn' self
               /\ TemporalCNN.frame (conv_layer self) cnn'.
End LSTMModel.

(** ** Scaled dot-product attention, as the specification words it

    Section 4.2 of the specification: three linear projections of the
    input, scores [query_i . key_j] divided by [sqrt D], a softmax over
    [j], and the output [sum_j weights[i,j] * value_j].  These definitions
    follow that text, to be compared with [SelfAttention.forward]. *)

Module AttentionSpec.
Section Spec.
Variable self : SelfAttention.t.
Variable x : Tensor.
Variable n : nat.    (* number of timesteps *)

Let D : nat := SelfAttention.num_features self.

Definition project (l : Linear.t) (i t k : nat) : R :=
  (sum_n D (fun d => at3 x i t d * Linear.weight l k d)
   + Linear.bias l k)%R.

Definition key := project (SelfAttention.key_matrix self).
Definition query := project (SelfAttention.query_matrix self).
Definition value := project (SelfAttention.value_matrix self).

Definition scores (i r c : nat) : R :=
  (sum_n D (fun k => query i r k * key i c k) / sqrt (INR D))%R.

Definition weights (i r c : nat) : R :=
  (exp (scores i r c) / sum_n n (fun c' => exp (scores i r c')))%R.

Definition output (i r d : nat) : R :=
  sum_n n (fun c => (weights i r c * value i c d)%R).
End Spec.
End AttentionSpec.

(** ** Concrete instances used in examples *)

Definition zeros (s : list nat) : Tensor :=
  {| shape := s; data := fun _ => 0%R |}.

Definition zero_direction : LSTM.direction :=
  LSTM.mk_direction (fun _ _ => 0%R) (fun _ _ => 0%R) (fun _ => 0%R)
    (fun _ => 0%R).

Definition zero_params : LSTMModel.params :=
  LSTMModel.mk_params
    (TemporalCNN.mk_params (fun _ _ _ => 0%R) (fun _ => 0%R)
       (fun _ _ _ => 0%R) (fun _ => 0%R))
    (fun _ _ => zero_direction)
    (SelfAttention.mk_params (fun _ _ => 0%R) (fun _ => 0%R)
       (fun _ _ => 0%R) (fun _ => 0%R) (fun _ _ => 0%R) (fun _ => 0%R))
    (fun _ _ => 0%R) (fun _ => 0%R).

(** A new model with vocabulary size 29 and the default 8 input channels. *)
Definition model_29_8 : LSTMModel.t := LSTMModel.init 29 8 zero_params.

(** A new model with two input channels. *)
Definition model_29_2 : LSTMModel.t := LSTMModel.init 29 2 zero_params.

Definition shape_of (r : result Tensor) : result (list nat) := rmap shape r.

Definition extractor_8 : TemporalCNN.t :=
  TemporalCNN.init 8 (LSTMModel.conv_params zero_params).

Definition attention_256 : SelfAttention.t :=
  SelfAttention.init 256 (LSTMModel.attention_params zero_params).

(** The same with a zero projection matrix and bias 5. *)
Definition biased_model : LSTMModel.t :=
  LSTMModel.init 29 8
    (LSTMModel.mk_params (LSTMModel.conv_params zero_params)
       (LSTMModel.lstm_weights zero_params)
       (LSTMModel.attention_params zero_params)
       (fun _ _ => 0%R) (fun _ => 5%R)).

(** ** Notions used to state further properties *)

Definition layer_in_training (l : Sequential.Layer) : bool :=
  match l with
  | Sequential.LBatchNorm1d bn => BatchNorm1d.training bn
  | _ => true
  end.

(** Every normalisation layer has its mode flag set. *)
Definition extractor_in_training (self : TemporalCNN.t) : Prop :=
  forallb layer_in_training (TemporalCNN.conv_layers self) = true.

Definition model_in_training (self : LSTMModel.t) : Prop :=
  extractor_in_training (LSTMModel.conv_layer self).

(** The models a program can hold: a new one, and what [forward],
    [train] and [eval] leave of one it holds. *)
Inductive reachable (output_size input_size : nat) : LSTMModel.t -> Prop :=
| reach_init (w : LSTMModel.params) :
    reachable output_size input_size
      (LSTMModel.init output_size input_size w)
| reach_forward (self : LSTMModel.t) (x : Tensor) :
    reachable output_size input_size self ->
    reachable output_size input_size (snd (LSTMModel.forward x self))
| reach_train (self : LSTMModel.t) (mode : bool) :
    reachable output_size input_size self ->
    reachable output_size input_size (LSTMModel.train mode self).

(** Batch element [i] of [x] and batch element [i'] of [x'] hold the same
    numbers. *)
Definition same_sample (i i' : nat) (x x' : Tensor) : Prop :=
  forall j k, at3 x i j k = at3 x' i' j k.

(** ** Proof automation *)

(** Peel the first layer off an equation [map kind ls = k :: ks]. *)
Ltac next_layer H l Hl :=
  apply map_eq_cons in H; destruct H as (l & ? & -> & Hl & H).

(** Read the attributes of a model whose extractor was just assigned. *)
Ltac model_attrs :=
  cbn [LSTMModel.lstm_layer LSTMModel.attention LSTMModel.linear_layer
         LSTMModel.set_conv_layer].

(** Case on the first test in the goal and drop the failing branch. *)
Ltac split_if :=
  match goal with
  | |- context [if ?c then _ else _] => destruct c
  end; cbn [rbind]; try discriminate.

(** Two expressions of the same form that read batch element [i] of one
    tensor and batch element [i'] of another are equal once those elements
    are ([H]). *)
Ltac by_sample H :=
  repeat first
    [ reflexivity
    | apply H
    | apply functional_extensionality; intro
    | f_equal ].

(** * Properties *)

Unset Implicit Arguments.

(** ** Shapes of the layers *)

Lemma shape_tensor3 d0 d1 d2 f : shape (tensor3 d0 d1 d2 f) = [d0; d1; d2].
Proof. reflexivity. Qed.

Lemma at3_tensor3 d0 d1 d2 f i j k : at3 (tensor3 d0 d1 d2 f) i j k = f i j k.
Proof. reflexivity. Qed.

Lemma permute_0_2_1_ok x d0 d1 d2 :
  shape x = [d0; d1; d2] ->
  permute_0_2_1 x = Ok (tensor3 d0 d2 d1 (fun i j k => at3 x i k j)).
Proof. intros Hs. unfold permute_0_2_1. now rewrite Hs. Qed.

(** A convolution with kernel 3, stride 1 and padding 1 keeps the length of
    every non-empty sequence. *)
Lemma conv_same_length c x b len :
  shape x = [b; Conv1d.in_channels c; len] ->
  Conv1d.kernel_size c = 3 -> Conv1d.stride c = 1 -> Conv1d.padding c = 1 ->
  1 <= len ->
  exists y, Conv1d.forward c x = Ok y
            /\ shape y = [b; Conv1d.out_channels c; len].
Proof.
  intros Hs Hk Hst Hp Hlen. unfold Conv1d.forward, Conv1d.batched. rewrite Hs.
  rewrite Nat.eqb_refl. cbn [negb].
  rewrite Hk, Hp.
  destruct (Nat.ltb_spec (len + 2 * 1) 3) as [Hlt | _]; [lia |].
  eexists. split; [reflexivity |].
  rewrite shape_tensor3. unfold Conv1d.out_length. rewrite Hk, Hst, Hp.
  rewrite Nat.div_1_r.
  replace (len + 2 * 1 - 3 + 1) with len by lia. reflexivity.
Qed.

Lemma conv_wrong_channels c x b ch len :
  shape x = [b; ch; len] -> ch <> Conv1d.in_channels c ->
  Conv1d.forward c x = Err (ChannelMismatch (Conv1d.in_channels c) ch).
Proof.
  intros Hs Hne. unfold Conv1d.forward, Conv1d.batched. rewrite Hs.
  destruct (Nat.eqb_spec ch (Conv1d.in_channels c)); [contradiction | reflexivity].
Qed.

(** A max pooling with window 2 and stride 2 halves, rounding down, the
    length of every sequence of at least two steps; shorter ones are
    refused. *)
Lemma pool_halves p x b ch len :
  shape x = [b; ch; len] ->
  MaxPool1d.kernel_size p = 2 -> MaxPool1d.stride p = 2 ->
  2 <= len ->
  exists y, MaxPool1d.forward p x = Ok y /\ shape y = [b; ch; len / 2].
Proof.
  intros Hs Hk Hst Hlen. unfold MaxPool1d.forward, MaxPool1d.batched. rewrite Hs.
  assert (Hout : MaxPool1d.out_length p len = len / 2).
  { unfold MaxPool1d.out_length. rewrite Hk, Hst.
    destruct (Nat.ltb_spec len 2) as [Hlt | _]; [lia |].
    replace len with ((len - 2) + 1 * 2) at 2 by lia.
    rewrite Nat.div_add by lia. reflexivity. }
  rewrite Hout.
  assert (Hpos : 1 <= len / 2).
  { change 1 with (2 / 2). apply Nat.Div0.div_le_mono. exact Hlen. }
  destruct (Nat.eqb_spec (len / 2) 0) as [Hz | _]; [lia |].
  eexists. split; [reflexivity | apply shape_tensor3].
Qed.

Lemma pool_too_short p x b ch len :
  shape x = [b; ch; len] -> len < MaxPool1d.kernel_size p ->
  MaxPool1d.forward p x = Err (OutputTooSmall len).
Proof.
  intros Hs Hlt. unfold MaxPool1d.forward, MaxPool1d.batched, MaxPool1d.out_length. rewrite Hs.
  destruct (Nat.ltb_spec len (MaxPool1d.kernel_size p)); [reflexivity | lia].
Qed.

Lemma relu_shape x : shape (relu x) = shape x.
Proof. reflexivity. Qed.

(** Batch normalisation keeps the shape; in training mode it needs more
    than one value per channel. *)
Lemma batchnorm_shape bn x b len :
  shape x = [b; BatchNorm1d.num_features bn; len] ->
  (BatchNorm1d.training bn = true -> b * len <> 1) ->
  exists y bn', BatchNorm1d.forward x bn = (Ok y, bn')
                /\ shape y = [b; BatchNorm1d.num_features bn; len]
                /\ BatchNorm1d.num_features bn' = BatchNorm1d.num_features bn.
Proof.
  intros Hs Hn. unfold BatchNorm1d.forward, BatchNorm1d.batched. rewrite Hs.
  rewrite Nat.eqb_refl. cbn [negb].
  destruct (BatchNorm1d.training bn).
  - destruct (Nat.eqb_spec (b * len) 1) as [E | _]; [now elim Hn |].
    destruct (_ =? 0); do 2 eexists; repeat split.
  - destruct (_ =? 0); do 2 eexists; repeat split.
Qed.

(** ** The convolutional extractor *)

Import Sequential.

Lemma sequential_forward_cons x l rest :
  Sequential.forward x (l :: rest) =
    match layer_forward x l with
    | (Ok y, l') =>
        let (r, rest') := Sequential.forward y rest in (r, l' :: rest')
    | (Err e, l') => (Err e, l' :: rest)
    end.
Proof. reflexivity. Qed.

Lemma sequential_cons_inv x l rest y layers' :
  Sequential.forward x (l :: rest) = (Ok y, layers') ->
  exists y1 l' rest',
    layer_forward x l = (Ok y1, l')
    /\ Sequential.forward y1 rest = (Ok y, rest')
    /\ layers' = l' :: rest'.
Proof.
  rewrite sequential_forward_cons.
  destruct (layer_forward x l) as [[y1 | e] l'] eqn:El; [| discriminate].
  destruct (Sequential.forward y1 rest) as [r rest'] eqn:Er.
  intros H. injection H as Hr Hls. subst r layers'.
  exists y1, l', rest'. repeat split. exact Er.
Qed.

Lemma kind_conv l i o k s p :
  kind l = KConv1d i o k s p ->
  exists w b, l = LConv1d (Conv1d.mk i o k s p w b).
Proof.
  destruct l as [[? ? ? ? ? w b] | ? | | ?]; cbn; intros H;
    try discriminate H.
  injection H as -> -> -> -> ->. now exists w, b.
Qed.

Lemma kind_batchnorm l n :
  kind l = KBatchNorm1d n ->
  exists bn, l = LBatchNorm1d bn /\ BatchNorm1d.num_features bn = n.
Proof.
  destruct l as [? | bn | | ?]; cbn; intros H; try discriminate H.
  injection H as <-. now exists bn.
Qed.

Lemma kind_relu l : kind l = KReLU -> l = LReLU.
Proof. destruct l; cbn; intros H; try discriminate H. reflexivity. Qed.

Lemma kind_maxpool l k s :
  kind l = KMaxPool1d k s -> l = LMaxPool1d (MaxPool1d.mk k s).
Proof.
  destruct l as [? | ? | | [? ?]]; cbn; intros H; try discriminate H.
  now injection H as -> ->.
Qed.

(** The layers of a configured extractor, in order. *)
Lemma configured_layers self :
  TemporalCNN.configured self ->
  exists w1 b1 bn1 w2 b2 bn2,
    TemporalCNN.conv_layers self =
      [ LConv1d (Conv1d.mk (TemporalCNN.input_size self) 64 3 1 1 w1 b1);
        LBatchNorm1d bn1; LReLU; LMaxPool1d (MaxPool1d.mk 2 2);
        LConv1d (Conv1d.mk 64 128 3 1 1 w2 b2);
        LBatchNorm1d bn2; LReLU; LMaxPool1d (MaxPool1d.mk 2 2) ]
    /\ BatchNorm1d.num_features bn1 = 64
    /\ BatchNorm1d.num_features bn2 = 128.
Proof.
  unfold TemporalCNN.configured, TemporalCNN.architecture.
  destruct self as [n ls]. cbn [TemporalCNN.conv_layers TemporalCNN.input_size].
  intros H.
  next_layer H l1 H1. next_layer H l2 H2. next_layer H l3 H3.
  next_layer H l4 H4. next_layer H l5 H5. next_layer H l6 H6.
  next_layer H l7 H7. next_layer H l8 H8.
  apply map_eq_nil in H. subst.
  apply kind_conv in H1, H5. destruct H1 as (w1 & b1 & ->).
  destruct H5 as (w2 & b2 & ->).
  apply kind_batchnorm in H2, H6. destruct H2 as (bn1 & -> & Hn1).
  destruct H6 as (bn2 & -> & Hn2).
  apply kind_relu in H3, H7. apply kind_maxpool in H4, H8. subst.
  now exists w1, b1, bn1, w2, b2, bn2.
Qed.

Lemma halves_twice T : 4 <= T -> 2 <= T / 2 /\ 1 <= T / 2 / 2.
Proof.
  intros H.
  assert (H2 : 4 / 2 <= T / 2) by (apply Nat.Div0.div_le_mono; exact H).
  change (4 / 2) with 2 in H2. split; [exact H2 |].
  change 1 with (2 / 2). apply Nat.Div0.div_le_mono. exact H2.
Qed.

Lemma several_values b len : 2 <= len -> b * len <> 1.
Proof. intros H E. apply Nat.eq_mul_1 in E. lia. Qed.

(** On a sequence of at least four steps whose channel axis matches, the
    extractor succeeds in either mode. *)
Lemma extractor_ok self x b T :
  TemporalCNN.configured self ->
  shape x = [b; TemporalCNN.input_size self; T] ->
  4 <= T ->
  exists y self',
    TemporalCNN.forward x self = (Ok y, self')
    /\ shape y = [b; 128; T / 2 / 2].
Proof.
  intros Hc Hs HT.
  destruct (configured_layers self Hc) as (w1 & b1 & bn1 & w2 & b2 & bn2 & Hl & Hn1 & Hn2).
  destruct (halves_twice T HT) as [HT2 HT4].
  unfold TemporalCNN.forward, zoom. rewrite Hl.
  (* first block *)
  destruct (conv_same_length
              (Conv1d.mk (TemporalCNN.input_size self) 64 3 1 1 w1 b1)
              x b T Hs eq_refl eq_refl eq_refl) as (y1 & E1 & S1); [lia |].
  cbn [Conv1d.out_channels] in S1. rewrite <- Hn1 in S1.
  destruct (batchnorm_shape bn1 y1 b T S1) as (y2 & bn1' & E2 & S2 & _).
  { intros _. apply several_values. lia. }
  rewrite <- (relu_shape y2) in S2.
  destruct (pool_halves (MaxPool1d.mk 2 2) (relu y2) _ _ _ S2 eq_refl eq_refl)
    as (y3 & E3 & S3); [lia |].
  (* second block *)
  rewrite Hn1 in S3.
  destruct (conv_same_length (Conv1d.mk 64 128 3 1 1 w2 b2)
              y3 b (T / 2) S3 eq_refl eq_refl eq_refl) as (y4 & E4 & S4); [lia |].
  cbn [Conv1d.out_channels] in S4. rewrite <- Hn2 in S4.
  destruct (batchnorm_shape bn2 y4 b (T / 2) S4) as (y5 & bn2' & E5 & S5 & _).
  { intros _. apply several_values. exact HT2. }
  rewrite <- (relu_shape y5) in S5.
  destruct (pool_halves (MaxPool1d.mk 2 2) (relu y5) _ _ _ S5 eq_refl eq_refl)
    as (y6 & E6 & S6); [exact HT2 |].
  rewrite Hn2 in S6.
  cbn [Sequential.forward layer_forward].
  rewrite E1, E2, E3, E4, E5, E6.
  do 2 eexists. split; [reflexivity | exact S6].
Qed.

(** ** What a call leaves in the stored state *)

Lemma batched_frame x b ch len bn :
  BatchNorm1d.same_parameters bn (snd (BatchNorm1d.batched x b ch len bn)).
Proof.
  unfold BatchNorm1d.batched.
  destruct (BatchNorm1d.training bn) eqn:Ht.
  - destruct (b * len =? 1); [cbn; repeat split; reflexivity |].
    destruct (b * ch * len =? 0); [cbn; repeat split; reflexivity |].
    destruct (negb (ch =? BatchNorm1d.num_features bn));
      cbn; repeat split; reflexivity.
  - destruct (b * ch * len =? 0); [cbn; repeat split; reflexivity |].
    destruct (negb (ch =? BatchNorm1d.num_features bn));
      cbn; repeat split; reflexivity.
Qed.

Lemma batchnorm_forward_frame x bn :
  BatchNorm1d.same_parameters bn (snd (BatchNorm1d.forward x bn)).
Proof.
  unfold BatchNorm1d.forward.
  destruct (shape x) as [| b [| ch [| len [| ? ?]]]];
    try (cbn; repeat split; reflexivity).
  - pose proof (batched_frame (unsqueeze_2 x) b ch 1 bn) as H.
    destruct (BatchNorm1d.batched (unsqueeze_2 x) b ch 1 bn). exact H.
  - apply batched_frame.
Qed.

Lemma batched_eval x b ch len bn :
  BatchNorm1d.training bn = false ->
  snd (BatchNorm1d.batched x b ch len bn) = bn.
Proof.
  intros Ht. unfold BatchNorm1d.batched. rewrite Ht.
  destruct (b * ch * len =? 0); [reflexivity |].
  destruct (negb (ch =? BatchNorm1d.num_features bn)); reflexivity.
Qed.

Lemma batchnorm_forward_eval x bn :
  BatchNorm1d.training bn = false -> snd (BatchNorm1d.forward x bn) = bn.
Proof.
  intros Ht. unfold BatchNorm1d.forward.
  destruct (shape x) as [| b [| ch [| len [| ? ?]]]]; try reflexivity.
  - pose proof (batched_eval (unsqueeze_2 x) b ch 1 bn Ht) as H.
    destruct (BatchNorm1d.batched (unsqueeze_2 x) b ch 1 bn). exact H.
  - now apply batched_eval.
Qed.

Lemma layer_forward_frame x l : layer_frame l (snd (layer_forward x l)).
Proof.
  destruct l as [c | bn | | p]; cbn; try reflexivity.
  pose proof (batchnorm_forward_frame x bn) as H.
  destruct (BatchNorm1d.forward x bn) as [r bn']. exact H.
Qed.

Lemma layer_forward_eval x l :
  layer_in_eval l = true -> snd (layer_forward x l) = l.
Proof.
  destruct l as [c | bn | | p]; cbn; try reflexivity.
  intros Ht. apply negb_true_iff in Ht.
  pose proof (batchnorm_forward_eval x bn Ht) as H.
  destruct (BatchNorm1d.forward x bn) as [r bn']. cbn in *. now subst.
Qed.

Lemma layer_frame_refl l : layer_frame l l.
Proof. destruct l; cbn; try reflexivity. repeat split. Qed.

Lemma sequential_forward_frame layers :
  forall x, Forall2 layer_frame layers (snd (Sequential.forward x layers)).
Proof.
  induction layers as [| l rest IH]; intros x; [constructor |].
  rewrite sequential_forward_cons.
  pose proof (layer_forward_frame x l) as Hl.
  destruct (layer_forward x l) as [[y | e] l']; cbn [snd] in Hl.
  - specialize (IH y). destruct (Sequential.forward y rest) as [r rest'].
    cbn [snd] in *. now constructor.
  - cbn [snd]. constructor; [exact Hl |].
    clear. induction rest; constructor; auto using layer_frame_refl.
Qed.

Lemma sequential_forward_eval layers :
  forall x, forallb layer_in_eval layers = true ->
            snd (Sequential.forward x layers) = layers.
Proof.
  induction layers as [| l rest IH]; intros x He; [reflexivity |].
  cbn [forallb] in He. apply andb_true_iff in He. destruct He as [Hl Hr].
  rewrite sequential_forward_cons.
  pose proof (layer_forward_eval x l Hl) as E.
  destruct (layer_forward x l) as [[y | e] l']; cbn [snd] in E; subst l'.
  - specialize (IH y Hr). destruct (Sequential.forward y rest) as [r rest'].
    cbn [snd] in *. now subst.
  - reflexivity.
Qed.

Lemma sequential_forward_kinds layers :
  forall x, map kind (snd (Sequential.forward x layers)) = map kind layers.
Proof.
  induction layers as [| l rest IH]; intros x; [reflexivity |].
  rewrite sequential_forward_cons.
  assert (Hk : kind (snd (layer_forward x l)) = kind l).
  { destruct l as [c | bn | | p]; try reflexivity.
    pose proof (batchnorm_forward_frame x bn) as H. cbn.
    destruct (BatchNorm1d.forward x bn) as [r bn']. destruct H as [Hn _].
    cbn in *. now rewrite Hn. }
  destruct (layer_forward x l) as [[y | e] l']; cbn [snd] in Hk.
  - specialize (IH y). destruct (Sequential.forward y rest) as [r rest'].
    cbn [snd map] in *. now rewrite Hk, IH.
  - cbn [snd map]. now rewrite Hk.
Qed.

(** ** The recurrent stage, the attention block and the projection *)

Lemma linear_ok l x b n :
  shape x = [b; n; Linear.in_features l] ->
  Linear.forward l x =
    Ok (tensor3 b n (Linear.out_features l)
          (fun i j o =>
             (sum_n (Linear.in_features l)
                (fun k => at3 x i j k * Linear.weight l o k)
              + Linear.bias l o)%R)).
Proof.
  intros Hs. unfold Linear.forward. rewrite Hs, Nat.eqb_refl. reflexivity.
Qed.

Lemma lstm_ok l x b len :
  LSTM.batch_first l = true ->
  shape x = [b; len; LSTM.input_size l] ->
  exists out h_n c_n,
    LSTM.forward l x = Ok (out, (h_n, c_n))
    /\ shape out = [b; len; LSTM.num_directions l * LSTM.hidden_size l].
Proof.
  intros Hb Hs. unfold LSTM.forward. rewrite Hs, Nat.eqb_refl, Hb.
  cbn [negb]. do 3 eexists. split; reflexivity.
Qed.

Lemma matmul_ok a b' ba n m p :
  shape a = [ba; n; m] -> shape b' = [ba; m; p] ->
  matmul a b' =
    Ok (tensor3 ba n p
          (fun i r c => sum_n m (fun k => (at3 a i r k * at3 b' i k c)%R))).
Proof.
  intros Ha Hb. unfold matmul. rewrite Ha, Hb, !Nat.eqb_refl. reflexivity.
Qed.

Lemma softmax_last_ok x d0 d1 d2 :
  shape x = [d0; d1; d2] ->
  softmax_last x =
    Ok (tensor3 d0 d1 d2
          (fun i j k => (exp (at3 x i j k)
                         / sum_n d2 (fun k' => exp (at3 x i j k')))%R)).
Proof. intros Hs. unfold softmax_last. now rewrite Hs. Qed.

(** On an input whose last axis has the configured width the attention
    block computes exactly the tensors of the specification. *)
Lemma attention_forward_eq self x b n :
  SelfAttention.configured self ->
  shape x = [b; n; SelfAttention.num_features self] ->
  SelfAttention.forward self x =
    Ok (tensor3 b n (SelfAttention.num_features self)
          (AttentionSpec.output self x n),
        tensor3 b n n (AttentionSpec.weights self x n)).
Proof.
  intros (Hk & Hq & Hv) Hs.
  destruct Hk as [Hki Hko], Hq as [Hqi Hqo], Hv as [Hvi Hvo].
  unfold SelfAttention.forward.
  rewrite (linear_ok (SelfAttention.key_matrix self) x b n)
    by (now rewrite Hki).
  rewrite (linear_ok (SelfAttention.query_matrix self) x b n)
    by (now rewrite Hqi).
  rewrite (linear_ok (SelfAttention.value_matrix self) x b n)
    by (now rewrite Hvi).
  rewrite Hki, Hko, Hqi, Hqo, Hvi, Hvo.
  cbn [rbind]. rewrite (permute_0_2_1_ok _ _ _ _ (shape_tensor3 _ _ _ _)).
  cbn [rbind].
  rewrite (matmul_ok _ _ b n (SelfAttention.num_features self) n
             (shape_tensor3 _ _ _ _) (shape_tensor3 _ _ _ _)).
  cbn [rbind].
  rewrite (softmax_last_ok _ b n n) by reflexivity.
  cbn [rbind].
  rewrite (matmul_ok _ _ b n n (SelfAttention.num_features self)
             (shape_tensor3 _ _ _ _) (shape_tensor3 _ _ _ _)).
  reflexivity.
Qed.

(** ** The whole model *)

(** The calls behind a successful [forward], in order. *)
Lemma forward_trace self x y self' :
  LSTMModel.forward x self = (Ok y, self') ->
  exists x1 x2 cnn' x3 o h_n c_n a w,
    permute_0_2_1 x = Ok x1
    /\ TemporalCNN.forward x1 (LSTMModel.conv_layer self) = (Ok x2, cnn')
    /\ permute_0_2_1 x2 = Ok x3
    /\ LSTM.forward (LSTMModel.lstm_layer self) x3 = Ok (o, (h_n, c_n))
    /\ SelfAttention.forward (LSTMModel.attention self) o = Ok (a, w)
    /\ Linear.forward (LSTMModel.linear_layer self) a = Ok y
    /\ self' = LSTMModel.set_conv_layer cnn' self.
Proof.
  intros H. revert H.
  unfold LSTMModel.forward, bind, call, zoom, ret.
  destruct (permute_0_2_1 x) as [x1 | e] eqn:E1; [| discriminate].
  destruct (TemporalCNN.forward x1 (LSTMModel.conv_layer self))
    as [[x2 | e] cnn'] eqn:E2; [| discriminate].
  destruct (permute_0_2_1 x2) as [x3 | e] eqn:E3; [| discriminate].
  model_attrs.
  destruct (LSTM.forward (LSTMModel.lstm_layer self) x3)
    as [[o [h_n c_n]] | e] eqn:E4; [| discriminate].
  model_attrs.
  destruct (SelfAttention.forward (LSTMModel.attention self) o)
    as [[a w] | e] eqn:E5; [| discriminate].
  model_attrs.
  destruct (Linear.forward (LSTMModel.linear_layer self) a)
    as [y' | e] eqn:E6; [| discriminate].
  intros H. injection H as -> <-.
  exists x1, x2, cnn', x3, o, h_n, c_n, a, w. repeat split; assumption.
Qed.

(** Whatever the outcome, the only attribute [forward] assigns is the
    extractor, and only once the first permutation has succeeded. *)
Lemma forward_state self x :
  snd (LSTMModel.forward x self) =
    match permute_0_2_1 x with
    | Ok x1 =>
        LSTMModel.set_conv_layer
          (snd (TemporalCNN.forward x1 (LSTMModel.conv_layer self))) self
    | Err _ => self
    end.
Proof.
  unfold LSTMModel.forward, bind, call, zoom, ret.
  destruct (permute_0_2_1 x) as [x1 | e]; [| reflexivity].
  destruct (TemporalCNN.forward x1 (LSTMModel.conv_layer self))
    as [[x2 | e] cnn']; [| reflexivity].
  destruct (permute_0_2_1 x2) as [x3 | e]; [| reflexivity].
  model_attrs.
  destruct (LSTM.forward (LSTMModel.lstm_layer self) x3)
    as [[o [h_n c_n]] | e]; [| reflexivity].
  model_attrs.
  destruct (SelfAttention.forward (LSTMModel.attention self) o)
    as [[a w] | e]; [| reflexivity].
  model_attrs.
  destruct (Linear.forward (LSTMModel.linear_layer self) a); reflexivity.
Qed.

Lemma set_conv_layer_same self :
  LSTMModel.set_conv_layer (LSTMModel.conv_layer self) self = self.
Proof. destruct self; reflexivity. Qed.

Lemma set_conv_layers_same cnn :
  TemporalCNN.set_conv_layers (TemporalCNN.conv_layers cnn) cnn = cnn.
Proof. destruct cnn; reflexivity. Qed.

Lemma extractor_state cnn x :
  snd (TemporalCNN.forward x cnn) =
    TemporalCNN.set_conv_layers
      (snd (Sequential.forward x (TemporalCNN.conv_layers cnn))) cnn.
Proof.
  unfold TemporalCNN.forward, zoom.
  destruct (Sequential.forward x (TemporalCNN.conv_layers cnn)); reflexivity.
Qed.

(** The model succeeds on [[b; T; input_size]] when [T] is at least 4. *)
Lemma model_forward_ok self x b T :
  LSTMModel.configured self ->
  shape x = [b; T; LSTMModel.input_size self] ->
  4 <= T ->
  exists y self',
    LSTMModel.forward x self = (Ok y, self')
    /\ shape y = [b; T / 2 / 2; LSTMModel.output_size self].
Proof.
  intros Hc Hs HT.
  destruct Hc as [cfg_conv0 cfg_conv_input0 cfg_lstm_input0 cfg_lstm_hidden0
                    _ cfg_lstm_batch_first0 cfg_lstm_bidir0 cfg_attention0
                    cfg_attention_width0 cfg_linear_in0 cfg_linear_out0].
  unfold LSTMModel.forward, bind, call, zoom, ret.
  rewrite (permute_0_2_1_ok x b T _ Hs).
  destruct (extractor_ok (LSTMModel.conv_layer self)
              (tensor3 b (LSTMModel.input_size self) T
                 (fun i j k => at3 x i k j)) b T cfg_conv0)
    as (x2 & cnn' & E2 & S2); [now rewrite cfg_conv_input0 | exact HT |].
  rewrite E2, (permute_0_2_1_ok x2 b 128 _ S2).
  model_attrs.
  destruct (lstm_ok (LSTMModel.lstm_layer self)
              (tensor3 b (T / 2 / 2) 128 (fun i j k => at3 x2 i k j))
              b (T / 2 / 2) cfg_lstm_batch_first0)
    as (o & h_n & c_n & E4 & S4); [now rewrite cfg_lstm_input0 |].
  rewrite E4. model_attrs.
  unfold LSTM.num_directions in S4.
  rewrite cfg_lstm_bidir0, cfg_lstm_hidden0 in S4.
  change (2 * 128) with 256 in S4. rewrite <- cfg_attention_width0 in S4.
  rewrite (attention_forward_eq _ o b (T / 2 / 2) cfg_attention0 S4).
  model_attrs.
  rewrite linear_ok with (b := b) (n := T / 2 / 2)
    by (now rewrite cfg_linear_in0, cfg_attention_width0).
  do 2 eexists. split; [reflexivity |].
  now rewrite shape_tensor3, cfg_linear_out0.
Qed.

(** ** Finite sums *)

Local Open Scope R_scope.

Lemma sum_n_ext n f g :
  (forall k, (k < n)%nat -> f k = g k) -> sum_n n f = sum_n n g.
Proof.
  induction n as [| n IH]; intros H; cbn; [reflexivity |].
  rewrite IH, (H n) by (intros; try apply H; lia). reflexivity.
Qed.

Lemma sum_n_zero n f : (forall k, f k = 0) -> sum_n n f = 0.
Proof.
  intros Hf. induction n as [| n IH]; cbn; [reflexivity |].
  rewrite IH, Hf. ring.
Qed.

Local Close Scope R_scope.

(** ** Worked examples *)

(** The scenario of the specification: batch 2, 8 channels, 16 steps. *)
Example extractor_on_16_steps :
  shape_of (fst (TemporalCNN.forward (zeros [2; 8; 16]) extractor_8))
  = Ok [2; 128; 4].
Proof. vm_compute. reflexivity. Qed.

Example model_on_16_steps :
  shape_of (fst (LSTMModel.forward (zeros [2; 16; 8]) model_29_8))
  = Ok [2; 4; 29].
Proof. vm_compute. reflexivity. Qed.

(** Lengths that are not multiples of 4 are rounded down twice. *)
Example model_on_7_steps :
  shape_of (fst (LSTMModel.forward (zeros [2; 7; 8]) model_29_8))
  = Ok [2; 1; 29].
Proof. vm_compute. reflexivity. Qed.

(** One step is already too short for the first pooling. *)
Example extractor_on_1_step :
  shape_of (fst (TemporalCNN.forward (zeros [2; 8; 1]) extractor_8))
  = Err (OutputTooSmall 1).
Proof. vm_compute. reflexivity. Qed.

(** In training mode a batch of one sequence of three steps leaves the
    second normalisation with a single value per channel. *)
Example extractor_single_value :
  shape_of (fst (TemporalCNN.forward (zeros [1; 8; 3]) extractor_8))
  = Err SingleValuePerChannel
  /\ shape_of (fst (TemporalCNN.forward (zeros [1; 8; 3])
                      (TemporalCNN.train false extractor_8)))
     = Err (OutputTooSmall 1).
Proof. split; vm_compute; reflexivity. Qed.

(** ** Claims about shapes *)

Lemma init_extractor_configured n w :
  TemporalCNN.configured (TemporalCNN.init n w).
Proof. reflexivity. Qed.

Lemma init_configured o n w : LSTMModel.configured (LSTMModel.init o n w).
Proof. constructor; try reflexivity. repeat split. Qed.

(** C3, as stated, fails: a sequence of two steps (which the claim admits)
    is halved to one step by the first pooling, and the second pooling then
    has no full window left and raises instead of returning zero steps. *)
Lemma extractor_short_sequence_rejected :
  TemporalCNN.configured extractor_8
  /\ shape (zeros [2; 8; 2]) = [2; TemporalCNN.input_size extractor_8; 2]
  /\ 2 <= 2
  /\ fst (TemporalCNN.forward (zeros [2; 8; 2]) extractor_8)
     = Err (OutputTooSmall 1).
Proof.
  split; [apply init_extractor_configured |].
  split; [reflexivity |]. split; [lia |]. vm_compute. reflexivity.
Qed.

(** C3, amended: for every batch size [b] and every sequence length
    [T >= 4], [TemporalCNN.forward] maps an input of shape [[b; C_in; T]]
    to an output of shape [[b; 128; floor(floor(T/2)/2)]]; each convolution
    (kernel 3, stride 1, padding 1) keeps the length of a non-empty
    sequence and each max pooling (window 2, stride 2) halves, rounding
    down, a length of at least 2. *)
Theorem extractor_output_shape self x b T :
  TemporalCNN.configured self ->
  shape x = [b; TemporalCNN.input_size self; T] ->
  4 <= T ->
  (exists y self',
      TemporalCNN.forward x self = (Ok y, self')
      /\ shape y = [b; 128; T / 2 / 2])
  /\ (forall c z len,
         shape z = [b; Conv1d.in_channels c; len] ->
         Conv1d.kernel_size c = 3 -> Conv1d.stride c = 1 ->
         Conv1d.padding c = 1 -> 1 <= len ->
         exists y, Conv1d.forward c z = Ok y
                   /\ shape y = [b; Conv1d.out_channels c; len])
  /\ (forall p z ch len,
         shape z = [b; ch; len] ->
         MaxPool1d.kernel_size p = 2 -> MaxPool1d.stride p = 2 -> 2 <= len ->
         exists y, MaxPool1d.forward p z = Ok y /\ shape y = [b; ch; len / 2]).
Proof.
  intros Hc Hs HT. split; [exact (extractor_ok self x b T Hc Hs HT) |].
  split.
  - intros c z len. apply conv_same_length.
  - intros p z ch len. apply pool_halves.
Qed.

Lemma extractor_output_shape_witness :
  TemporalCNN.configured extractor_8
  /\ shape (zeros [2; 8; 16]) = [2; TemporalCNN.input_size extractor_8; 16]
  /\ 4 <= 16
  /\ exists y self',
       TemporalCNN.forward (zeros [2; 8; 16]) extractor_8 = (Ok y, self')
       /\ shape y = [2; 128; 4].
Proof.
  assert (Hc : TemporalCNN.configured extractor_8)
    by apply init_extractor_configured.
  assert (HT : 4 <= 16) by lia.
  split; [exact Hc |]. split; [reflexivity |]. split; [exact HT |].
  exact (proj1 (extractor_output_shape extractor_8 (zeros [2; 8; 16]) 2 16
                  Hc eq_refl HT)).
Defined.

(** C1, as stated, fails: [forward] permutes its argument before the
    extractor sees it, so on an input laid out [[B; input_size; T]] the
    first convolution finds [T] channels and raises. *)
Lemma forward_channel_first_rejected :
  LSTMModel.configured model_29_8
  /\ shape (zeros [2; 8; 16]) = [2; LSTMModel.input_size model_29_8; 16]
  /\ 16 mod 4 = 0
  /\ fst (LSTMModel.forward (zeros [2; 8; 16]) model_29_8)
     = Err (ChannelMismatch 8 16).
Proof.
  split; [apply init_configured |].
  split; [reflexivity |]. split; [reflexivity |]. vm_compute. reflexivity.
Qed.

(** An empty sequence, whose length 0 is divisible by 4, is refused by the
    first convolution: two padding zeros do not fill a kernel of three. *)
Lemma forward_empty_sequence_rejected :
  fst (LSTMModel.forward (zeros [2; 0; 8]) model_29_8)
  = Err (KernelTooLarge 2 3).
Proof. vm_compute. reflexivity. Qed.

(** C1, amended: for every batch size [b], every positive sequence length
    [T] divisible by 4, every [input_size] and [output_size],
    [LSTMModel.forward] on an input of shape [[b; T; input_size]] returns a
    tensor of shape [[b; T/4; output_size]]. *)
Theorem forward_output_shape self x b T :
  LSTMModel.configured self ->
  shape x = [b; T; LSTMModel.input_size self] ->
  T mod 4 = 0 -> 0 < T ->
  exists y self',
    LSTMModel.forward x self = (Ok y, self')
    /\ shape y = [b; T / 4; LSTMModel.output_size self].
Proof.
  intros Hc Hs Hmod Hpos.
  assert (HT : 4 <= T).
  { pose proof (Nat.div_mod_eq T 4) as E. rewrite Hmod in E. lia. }
  destruct (model_forward_ok self x b T Hc Hs HT) as (y & self' & E & Sy).
  exists y, self'. split; [exact E |].
  rewrite Sy, Nat.Div0.div_div. reflexivity.
Qed.

Lemma forward_output_shape_witness :
  LSTMModel.configured model_29_8
  /\ shape (zeros [2; 16; 8]) = [2; 16; LSTMModel.input_size model_29_8]
  /\ 16 mod 4 = 0 /\ 0 < 16
  /\ exists y self',
       LSTMModel.forward (zeros [2; 16; 8]) model_29_8 = (Ok y, self')
       /\ shape y = [2; 4; 29].
Proof.
  assert (Hc : LSTMModel.configured model_29_8) by apply init_configured.
  assert (HT : 0 < 16) by lia.
  split; [exact Hc |]. split; [reflexivity |]. split; [reflexivity |].
  split; [exact HT |].
  exact (forward_output_shape model_29_8 (zeros [2; 16; 8]) 2 16
           Hc eq_refl eq_refl HT).
Defined.

(** ** Claims about errors *)

(** The first convolution refuses a wrong channel count before any layer
    has touched its buffers. *)
Lemma extractor_wrong_channels self x b ch T :
  TemporalCNN.configured self ->
  shape x = [b; ch; T] -> ch <> TemporalCNN.input_size self ->
  TemporalCNN.forward x self
  = (Err (ChannelMismatch (TemporalCNN.input_size self) ch), self).
Proof.
  intros Hc Hs Hne.
  destruct (configured_layers self Hc)
    as (w1 & b1 & bn1 & w2 & b2 & bn2 & Hl & _).
  unfold TemporalCNN.forward, zoom. rewrite Hl.
  cbn [Sequential.forward layer_forward].
  rewrite (conv_wrong_channels _ x b ch T Hs) by exact Hne.
  cbn [Conv1d.in_channels]. rewrite <- Hl.
  now rewrite set_conv_layers_same.
Qed.

Lemma model_wrong_channels self x b T c :
  LSTMModel.configured self ->
  shape x = [b; T; c] -> c <> LSTMModel.input_size self ->
  LSTMModel.forward x self
  = (Err (ChannelMismatch (LSTMModel.input_size self) c), self).
Proof.
  intros Hc Hs Hne.
  unfold LSTMModel.forward, bind, call, zoom, ret.
  rewrite (permute_0_2_1_ok x b T c Hs).
  rewrite (extractor_wrong_channels (LSTMModel.conv_layer self) _ b c T
             (LSTMModel.cfg_conv Hc) (shape_tensor3 _ _ _ _))
    by (now rewrite (LSTMModel.cfg_conv_input Hc)).
  now rewrite (LSTMModel.cfg_conv_input Hc), set_conv_layer_same.
Qed.

(** C6, as stated, fails: a model configured for two channels receives
    an input whose axes all have length 2, so that its channel count agrees
    with [input_size] however the axes are read, and [forward] raises all
    the same, the sequence being too short for the second pooling.  And
    with the input laid out as the specification's data model has it,
    [[B; C_in; T]], a channel count 8 that agrees with [input_size] is
    refused, because the axis the convolution checks is the last one. *)
Lemma agreeing_channels_rejected :
  (LSTMModel.configured model_29_2
   /\ shape (zeros [2; 2; 2])
      = [2; LSTMModel.input_size model_29_2; LSTMModel.input_size model_29_2]
   /\ fst (LSTMModel.forward (zeros [2; 2; 2]) model_29_2)
      = Err (OutputTooSmall 1))
  /\ (LSTMModel.configured model_29_8
      /\ shape (zeros [2; 8; 16]) = [2; LSTMModel.input_size model_29_8; 16]
      /\ fst (LSTMModel.forward (zeros [2; 8; 16]) model_29_8)
         = Err (ChannelMismatch 8 16)).
Proof.
  split; (split; [apply init_configured |]); (split; [reflexivity |]);
    vm_compute; reflexivity.
Qed.

(** C6, amended: if the length of the last axis of an input of shape
    [[b; T; c]] disagrees with the configured [input_size],
    [LSTMModel.forward] fails with the channel-mismatch error of the first
    convolution, having validated and changed nothing itself; when it
    agrees and [T >= 4] the call succeeds. *)
Theorem forward_channel_check self x b T c :
  LSTMModel.configured self ->
  shape x = [b; T; c] ->
  (c <> LSTMModel.input_size self ->
   LSTMModel.forward x self
   = (Err (ChannelMismatch (LSTMModel.input_size self) c), self)
   /\ is_shape_mismatch (ChannelMismatch (LSTMModel.input_size self) c) = true)
  /\ (c = LSTMModel.input_size self -> 4 <= T ->
      is_ok (fst (LSTMModel.forward x self)) = true).
Proof.
  intros Hc Hs. split.
  - intros Hne. split; [| reflexivity].
    exact (model_wrong_channels self x b T c Hc Hs Hne).
  - intros -> HT.
    destruct (model_forward_ok self x b T Hc Hs HT) as (y & self' & E & _).
    now rewrite E.
Qed.

Lemma forward_channel_check_witness :
  LSTMModel.configured model_29_8
  /\ (shape (zeros [2; 16; 7]) = [2; 16; 7]
      /\ 7 <> LSTMModel.input_size model_29_8
      /\ LSTMModel.forward (zeros [2; 16; 7]) model_29_8
         = (Err (ChannelMismatch 8 7), model_29_8))
  /\ (shape (zeros [2; 16; 8]) = [2; 16; 8]
      /\ 8 = LSTMModel.input_size model_29_8
      /\ 4 <= 16
      /\ is_ok (fst (LSTMModel.forward (zeros [2; 16; 8]) model_29_8)) = true).
Proof.
  assert (Hc : LSTMModel.configured model_29_8) by apply init_configured.
  assert (Hne : 7 <> LSTMModel.input_size model_29_8) by (cbn; lia).
  assert (HT : 4 <= 16) by lia.
  split; [exact Hc |]. split.
  - split; [reflexivity |]. split; [exact Hne |].
    exact (proj1 (proj1 (forward_channel_check model_29_8 (zeros [2; 16; 7])
                           2 16 7 Hc eq_refl) Hne)).
  - split; [reflexivity |]. split; [reflexivity |]. split; [exact HT |].
    exact (proj2 (forward_channel_check model_29_8 (zeros [2; 16; 8])
                    2 16 8 Hc eq_refl) eq_refl HT).
Defined.

(** ** Claims about stored state *)

Lemma batched_after x b ch len bn y bn' :
  BatchNorm1d.batched x b ch len bn = (Ok y, bn') ->
  bn' = if BatchNorm1d.training bn
        then BatchNorm1d.trained_on bn x b ch len
        else bn.
Proof.
  unfold BatchNorm1d.batched, BatchNorm1d.trained_on.
  destruct (BatchNorm1d.training bn).
  - destruct (b * len =? 1); [discriminate |].
    destruct (b * ch * len =? 0); [now intros H; injection H as _ <- |].
    destruct (negb _); [discriminate |].
    now intros H; injection H as _ <-.
  - destruct (b * ch * len =? 0); [now intros H; injection H as _ <- |].
    destruct (negb _); [discriminate |].
    now intros H; injection H as _ <-.
Qed.

Lemma batchnorm_forward_after x bn y bn' :
  BatchNorm1d.forward x bn = (Ok y, bn') ->
  bn' = BatchNorm1d.after_call bn x.
Proof.
  unfold BatchNorm1d.forward, BatchNorm1d.after_call.
  destruct (shape x) as [| b [| ch [| len [| ? ?]]]]; try discriminate.
  - destruct (BatchNorm1d.batched (unsqueeze_2 x) b ch 1 bn)
      as [[z | e] bn1] eqn:E; cbn [rmap rbind]; [| discriminate].
    intros H. injection H as _ <-.
    rewrite (batched_after _ _ _ _ _ _ _ E).
    now destruct (BatchNorm1d.training bn).
  - intros H. rewrite (batched_after _ _ _ _ _ _ _ H).
    now destruct (BatchNorm1d.training bn).
Qed.



Lemma train_false_in_eval layers :
  forallb layer_in_eval (map (layer_train false) layers) = true.
Proof.
  induction layers as [| [c | bn | | p] rest IH]; cbn; auto.
Qed.

Lemma extractor_eval_unchanged cnn x :
  TemporalCNN.in_eval cnn -> snd (TemporalCNN.forward x cnn) = cnn.
Proof.
  intros He. rewrite extractor_state, sequential_forward_eval by exact He.
  apply set_conv_layers_same.
Qed.

Lemma model_eval_unchanged self x :
  LSTMModel.in_eval self -> snd (LSTMModel.forward x self) = self.
Proof.
  intros He. rewrite forward_state.
  destruct (permute_0_2_1 x) as [x1 | e]; [| reflexivity].
  rewrite extractor_eval_unchanged by exact He.
  apply set_conv_layer_same.
Qed.

Lemma eval_in_eval self : LSTMModel.in_eval (LSTMModel.eval self).
Proof.
  unfold LSTMModel.in_eval, LSTMModel.eval, LSTMModel.train,
    TemporalCNN.in_eval.
  cbn. apply train_false_in_eval.
Qed.

(** C7: in evaluation mode a second call of [LSTMModel.forward] on the
    same input, made on the model as the first call left it, returns the
    same result as the first (the same output tensor, or the same error)
    and leaves the same model. *)
Theorem forward_eval_deterministic self x :
  LSTMModel.forward x (snd (LSTMModel.forward x (LSTMModel.eval self)))
  = LSTMModel.forward x (LSTMModel.eval self).
Proof.
  now rewrite (model_eval_unchanged (LSTMModel.eval self) x (eval_in_eval self)).
Qed.




(** ** Claims about the attention block *)

Lemma init_attention_configured n w :
  SelfAttention.configured (SelfAttention.init n w).
Proof. repeat split. Qed.



(** ** The inputs the extractor and the model accept *)

Lemma permute_0_2_1_inv x y :
  permute_0_2_1 x = Ok y ->
  exists d0 d1 d2,
    shape x = [d0; d1; d2]
    /\ shape y = [d0; d2; d1]
    /\ forall i j k, at3 y i j k = at3 x i k j.
Proof.
  unfold permute_0_2_1.
  destruct (shape x) as [| d0 [| d1 [| d2 [| ? ?]]]]; try discriminate.
  intros H. injection H as <-. exists d0, d1, d2. repeat split.
Qed.

Lemma linear_inv l a y :
  Linear.forward l a = Ok y ->
  exists b n,
    shape a = [b; n; Linear.in_features l]
    /\ shape y = [b; n; Linear.out_features l]
    /\ forall i t v,
         at3 y i t v
         = (sum_n (Linear.in_features l)
              (fun k => at3 a i t k * Linear.weight l v k)
            + Linear.bias l v)%R.
Proof.
  unfold Linear.forward.
  destruct (shape a) as [| b [| n [| f [| ? ?]]]]; try discriminate.
  destruct (Nat.eqb_spec f (Linear.in_features l)) as [-> | _];
    [| discriminate].
  cbn [negb]. intros H. injection H as <-.
  exists b, n. repeat split.
Qed.

Lemma conv_kernel_too_large c x b len :
  shape x = [b; Conv1d.in_channels c; len] ->
  len + 2 * Conv1d.padding c < Conv1d.kernel_size c ->
  Conv1d.forward c x
  = Err (KernelTooLarge (len + 2 * Conv1d.padding c) (Conv1d.kernel_size c)).
Proof.
  intros Hs Hlt. unfold Conv1d.forward, Conv1d.batched. rewrite Hs, Nat.eqb_refl.
  cbn [negb].
  destruct (Nat.ltb_spec (len + 2 * Conv1d.padding c) (Conv1d.kernel_size c));
    [reflexivity | lia].
Qed.

(** A normalisation layer fed the right number of channels either
    normalises or, in training mode with a single value per channel,
    raises; in training mode the counter moves either way. *)
Lemma batchnorm_cases bn x b len :
  shape x = [b; BatchNorm1d.num_features bn; len] ->
  exists r bn',
    BatchNorm1d.forward x bn = (r, bn')
    /\ (BatchNorm1d.training bn = true ->
        BatchNorm1d.num_batches_tracked bn'
        = S (BatchNorm1d.num_batches_tracked bn))
    /\ ((exists y, r = Ok y
                   /\ shape y = [b; BatchNorm1d.num_features bn; len])
        \/ (r = Err SingleValuePerChannel
            /\ BatchNorm1d.training bn = true /\ b * len = 1)).
Proof.
  intros Hs. unfold BatchNorm1d.forward, BatchNorm1d.batched. rewrite Hs, Nat.eqb_refl.
  cbn [negb]. destruct (BatchNorm1d.training bn).
  - destruct (Nat.eqb_spec (b * len) 1) as [E | _].
    + do 2 eexists. split; [reflexivity |]. split; [reflexivity |].
      right. now repeat split.
    + destruct (_ =? 0);
        (do 2 eexists; split; [reflexivity |]; split; [reflexivity |];
         left; eexists; split; reflexivity).
  - destruct (_ =? 0);
      (do 2 eexists; split; [reflexivity |]; split; [discriminate |];
       left; eexists; split; reflexivity).
Qed.

(** What the extractor does with a sequence of two or three steps: the
    first block goes through, and the call raises in the second block,
    at the normalisation or at the pooling. *)
Lemma extractor_two_or_three self x b T w1 b1 bn1 w2 b2 bn2 :
  TemporalCNN.conv_layers self =
    [ LConv1d (Conv1d.mk (TemporalCNN.input_size self) 64 3 1 1 w1 b1);
      LBatchNorm1d bn1; LReLU; LMaxPool1d (MaxPool1d.mk 2 2);
      LConv1d (Conv1d.mk 64 128 3 1 1 w2 b2);
      LBatchNorm1d bn2; LReLU; LMaxPool1d (MaxPool1d.mk 2 2) ] ->
  BatchNorm1d.num_features bn1 = 64 ->
  BatchNorm1d.num_features bn2 = 128 ->
  shape x = [b; TemporalCNN.input_size self; T] ->
  2 <= T < 4 ->
  exists e bn1' bn2',
    TemporalCNN.forward x self
    = (Err e,
       TemporalCNN.set_conv_layers
         [ LConv1d (Conv1d.mk (TemporalCNN.input_size self) 64 3 1 1 w1 b1);
           LBatchNorm1d bn1'; LReLU; LMaxPool1d (MaxPool1d.mk 2 2);
           LConv1d (Conv1d.mk 64 128 3 1 1 w2 b2);
           LBatchNorm1d bn2'; LReLU; LMaxPool1d (MaxPool1d.mk 2 2) ] self)
    /\ (e = OutputTooSmall 1 \/ e = SingleValuePerChannel)
    /\ (BatchNorm1d.training bn1 = true ->
        BatchNorm1d.num_batches_tracked bn1'
        = S (BatchNorm1d.num_batches_tracked bn1))
    /\ (BatchNorm1d.training bn2 = true ->
        BatchNorm1d.num_batches_tracked bn2'
        = S (BatchNorm1d.num_batches_tracked bn2)).
Proof.
  intros Hl Hn1 Hn2 Hs HT.
  assert (Hhalf : T / 2 = 1).
  { destruct HT as [H2 H4].
    destruct T as [| [| [| [| T]]]]; try lia; reflexivity. }
  unfold TemporalCNN.forward, zoom. rewrite Hl.
  destruct (conv_same_length
              (Conv1d.mk (TemporalCNN.input_size self) 64 3 1 1 w1 b1)
              x b T Hs eq_refl eq_refl eq_refl) as (y1 & E1 & S1); [lia |].
  cbn [Conv1d.out_channels] in S1. rewrite <- Hn1 in S1.
  destruct (batchnorm_cases bn1 y1 b T S1)
    as (r2 & bn1' & E2 & C1 & [(y2 & -> & S2) | (_ & _ & Hone)]).
  2: { apply Nat.eq_mul_1 in Hone. lia. }
  rewrite <- (relu_shape y2) in S2.
  destruct (pool_halves (MaxPool1d.mk 2 2) (relu y2) _ _ _ S2 eq_refl eq_refl)
    as (y3 & E3 & S3); [lia |].
  rewrite Hn1, Hhalf in S3.
  destruct (conv_same_length (Conv1d.mk 64 128 3 1 1 w2 b2)
              y3 b 1 S3 eq_refl eq_refl eq_refl) as (y4 & E4 & S4); [lia |].
  cbn [Conv1d.out_channels] in S4. rewrite <- Hn2 in S4.
  destruct (batchnorm_cases bn2 y4 b 1 S4)
    as (r5 & bn2' & E5 & C2 & [(y5 & -> & S5) | (-> & _ & _)]).
  - rewrite <- (relu_shape y5) in S5.
    pose proof (pool_too_short (MaxPool1d.mk 2 2) (relu y5) _ _ _ S5) as E6.
    cbn [MaxPool1d.kernel_size] in E6. specialize (E6 ltac:(lia)).
    cbn [Sequential.forward layer_forward].
    rewrite E1, E2, E3, E4, E5, E6.
    exists (OutputTooSmall 1), bn1', bn2'. repeat split; auto.
  - cbn [Sequential.forward layer_forward].
    rewrite E1, E2, E3, E4, E5.
    exists SingleValuePerChannel, bn1', bn2'. repeat split; auto.
Qed.

Lemma extractor_too_short self x b T :
  TemporalCNN.configured self ->
  shape x = [b; TemporalCNN.input_size self; T] ->
  T < 4 ->
  exists e,
    fst (TemporalCNN.forward x self) = Err e
    /\ (e = KernelTooLarge 2 3 \/ e = OutputTooSmall 1
        \/ e = SingleValuePerChannel).
Proof.
  intros Hc Hs HT.
  destruct (configured_layers self Hc)
    as (w1 & b1 & bn1 & w2 & b2 & bn2 & Hl & Hn1 & Hn2).
  destruct (Nat.le_gt_cases 2 T) as [H2 | H2].
  - destruct (extractor_two_or_three self x b T w1 b1 bn1 w2 b2 bn2
                Hl Hn1 Hn2 Hs (conj H2 HT))
      as (e & bn1' & bn2' & E & [-> | ->] & _); rewrite E;
      (eexists; split; [reflexivity | auto]).
  - unfold TemporalCNN.forward, zoom. rewrite Hl.
    destruct T as [| [| T]]; [| | lia].
    + pose proof (conv_kernel_too_large
                    (Conv1d.mk (TemporalCNN.input_size self) 64 3 1 1 w1 b1)
                    x b 0 Hs) as E1.
      cbn [Conv1d.padding Conv1d.kernel_size] in E1.
      specialize (E1 ltac:(lia)).
      cbn [Sequential.forward layer_forward]. rewrite E1.
      eexists. split; [reflexivity | auto].
    + destruct (conv_same_length
                  (Conv1d.mk (TemporalCNN.input_size self) 64 3 1 1 w1 b1)
                  x b 1 Hs eq_refl eq_refl eq_refl) as (y1 & E1 & S1); [lia |].
      cbn [Conv1d.out_channels] in S1. rewrite <- Hn1 in S1.
      destruct (batchnorm_cases bn1 y1 b 1 S1)
        as (r2 & bn1' & E2 & _ & [(y2 & -> & S2) | (-> & _ & _)]).
      * rewrite <- (relu_shape y2) in S2.
        pose proof (pool_too_short (MaxPool1d.mk 2 2) (relu y2) _ _ _ S2)
          as E3.
        cbn [MaxPool1d.kernel_size] in E3. specialize (E3 ltac:(lia)).
        cbn [Sequential.forward layer_forward]. rewrite E1, E2, E3.
        eexists. split; [reflexivity | auto].
      * cbn [Sequential.forward layer_forward]. rewrite E1, E2.
        eexists. split; [reflexivity | auto].
Qed.

Lemma conv_other_rank c x :
  length (shape x) <> 2 -> length (shape x) <> 3 ->
  Conv1d.forward c x = Err (RankMismatch 3 (length (shape x))).
Proof.
  unfold Conv1d.forward.
  destruct (shape x) as [| ? [| ? [| ? [| ? ?]]]]; cbn; intros H2 H3;
    try reflexivity; lia.
Qed.

Lemma conv_unbatched_wrong_channels c x ch len :
  shape x = [ch; len] -> ch <> Conv1d.in_channels c ->
  Conv1d.forward c x = Err (ChannelMismatch (Conv1d.in_channels c) ch).
Proof.
  intros Hs Hne. unfold Conv1d.forward, Conv1d.batched. rewrite Hs.
  destruct (Nat.eqb_spec ch (Conv1d.in_channels c));
    [contradiction | reflexivity].
Qed.

Lemma conv_unbatched_kernel_too_large c x len :
  shape x = [Conv1d.in_channels c; len] ->
  len + 2 * Conv1d.padding c < Conv1d.kernel_size c ->
  Conv1d.forward c x
  = Err (KernelTooLarge (len + 2 * Conv1d.padding c) (Conv1d.kernel_size c)).
Proof.
  intros Hs Hlt. unfold Conv1d.forward, Conv1d.batched.
  rewrite Hs, Nat.eqb_refl. cbn [negb].
  destruct (Nat.ltb_spec (len + 2 * Conv1d.padding c) (Conv1d.kernel_size c));
    [reflexivity | lia].
Qed.

Lemma conv_unbatched_same_length c x len :
  shape x = [Conv1d.in_channels c; len] ->
  Conv1d.kernel_size c = 3 -> Conv1d.stride c = 1 -> Conv1d.padding c = 1 ->
  1 <= len ->
  exists y, Conv1d.forward c x = Ok y
            /\ shape y = [Conv1d.out_channels c; len].
Proof.
  intros Hs Hk Hst Hp Hlen. unfold Conv1d.forward, Conv1d.batched.
  rewrite Hs, Nat.eqb_refl. cbn [negb]. rewrite Hk, Hp.
  destruct (Nat.ltb_spec (len + 2 * 1) 3) as [Hlt | _]; [lia |].
  eexists. split; [reflexivity |].
  cbn [rmap rbind squeeze_0 shape tensor3 tensor2].
  unfold Conv1d.out_length. rewrite Hk, Hst, Hp, Nat.div_1_r.
  replace (len + 2 * 1 - 3 + 1) with len by lia. reflexivity.
Qed.

Lemma pool_unbatched_halves p x ch len :
  shape x = [ch; len] ->
  MaxPool1d.kernel_size p = 2 -> MaxPool1d.stride p = 2 ->
  2 <= len ->
  exists y, MaxPool1d.forward p x = Ok y /\ shape y = [ch; len / 2].
Proof.
  intros Hs Hk Hst Hlen. unfold MaxPool1d.forward, MaxPool1d.batched.
  rewrite Hs.
  assert (Hout : MaxPool1d.out_length p len = len / 2).
  { unfold MaxPool1d.out_length. rewrite Hk, Hst.
    destruct (Nat.ltb_spec len 2) as [Hlt | _]; [lia |].
    replace len with ((len - 2) + 1 * 2) at 2 by lia.
    rewrite Nat.div_add by lia. reflexivity. }
  rewrite Hout.
  assert (Hpos : 1 <= len / 2).
  { change 1 with (2 / 2). apply Nat.Div0.div_le_mono. exact Hlen. }
  destruct (Nat.eqb_spec (len / 2) 0) as [Hz | _]; [lia |].
  eexists. split; reflexivity.
Qed.

(** A batch of [n] vectors, [n] not 1, whose length is not the number of
    features is refused in either mode. *)
Lemma batchnorm_vectors_wrong_channels bn x n ch :
  shape x = [n; ch] -> ch <> BatchNorm1d.num_features bn ->
  n <> 1 -> n * ch <> 0 ->
  exists bn',
    BatchNorm1d.forward x bn
    = (Err (ChannelMismatch (BatchNorm1d.num_features bn) ch), bn').
Proof.
  intros Hs Hne Hn Hz. unfold BatchNorm1d.forward, BatchNorm1d.batched.
  rewrite Hs.
  destruct (Nat.eqb_spec (n * 1) 1) as [E | _]; [lia |].
  destruct (Nat.eqb_spec (n * ch * 1) 0) as [E | _]; [lia |].
  destruct (Nat.eqb_spec ch (BatchNorm1d.num_features bn));
    [contradiction |].
  destruct (BatchNorm1d.training bn); eexists; reflexivity.
Qed.

Lemma batchnorm_vectors_ok bn x n :
  shape x = [n; BatchNorm1d.num_features bn] -> n <> 1 ->
  exists y bn',
    BatchNorm1d.forward x bn = (Ok y, bn')
    /\ shape y = [n; BatchNorm1d.num_features bn].
Proof.
  intros Hs Hn. unfold BatchNorm1d.forward, BatchNorm1d.batched.
  rewrite Hs, Nat.eqb_refl.
  destruct (Nat.eqb_spec (n * 1) 1) as [E | _]; [lia |].
  destruct (BatchNorm1d.training bn), (_ =? 0);
    do 2 eexists; split; reflexivity.
Qed.

(** The extractor never gets through an unbatched sequence: a
    normalisation layer reads its first axis as the batch and its second
    as the channels, and the two blocks cannot both find their number of
    features there. *)
Lemma extractor_unbatched_fails self x ch len :
  TemporalCNN.configured self ->
  shape x = [ch; len] ->
  is_ok (fst (TemporalCNN.forward x self)) = false.
Proof.
  intros Hc Hs.
  destruct (configured_layers self Hc)
    as (w1 & b1 & bn1 & w2 & b2 & bn2 & Hl & Hn1 & Hn2).
  unfold TemporalCNN.forward, zoom. rewrite Hl.
  cbn [Sequential.forward layer_forward].
  destruct (Nat.eq_dec ch (TemporalCNN.input_size self)) as [-> | Hne].
  2: { now rewrite (conv_unbatched_wrong_channels
                      (Conv1d.mk (TemporalCNN.input_size self) 64 3 1 1 w1 b1)
                      x ch len Hs Hne). }
  destruct (Nat.eq_dec len 0) as [-> | Hlen].
  { pose proof (conv_unbatched_kernel_too_large
                  (Conv1d.mk (TemporalCNN.input_size self) 64 3 1 1 w1 b1)
                  x 0 Hs) as E1.
    cbn [Conv1d.padding Conv1d.kernel_size] in E1.
    now rewrite (E1 ltac:(lia)). }
  destruct (conv_unbatched_same_length
              (Conv1d.mk (TemporalCNN.input_size self) 64 3 1 1 w1 b1)
              x len Hs eq_refl eq_refl eq_refl) as (y1 & E1 & S1); [lia |].
  cbn [Conv1d.out_channels] in S1. rewrite E1.
  destruct (Nat.eq_dec len 64) as [-> | Hl64].
  2: { destruct (batchnorm_vectors_wrong_channels bn1 y1 64 len S1)
         as (bn1' & E2); [now rewrite Hn1 | lia | lia |].
       now rewrite E2. }
  rewrite <- Hn1 in S1 at 2.
  destruct (batchnorm_vectors_ok bn1 y1 64 S1) as (y2 & bn1' & E2 & S2);
    [lia |].
  rewrite E2. rewrite <- (relu_shape y2) in S2.
  destruct (pool_unbatched_halves (MaxPool1d.mk 2 2) (relu y2) _ _ S2
              eq_refl eq_refl) as (y3 & E3 & S3); [lia |].
  rewrite E3. rewrite Hn1 in S3. change (64 / 2) with 32 in S3.
  destruct (conv_unbatched_same_length (Conv1d.mk 64 128 3 1 1 w2 b2)
              y3 32 S3 eq_refl eq_refl eq_refl) as (y4 & E4 & S4); [lia |].
  cbn [Conv1d.out_channels] in S4. rewrite E4.
  destruct (batchnorm_vectors_wrong_channels bn2 y4 128 32 S4)
    as (bn2' & E5); [now rewrite Hn2 | lia | lia |].
  now rewrite E5.
Qed.

(** The inputs the extractor gets through. *)
Lemma extractor_accepts self x :
  TemporalCNN.configured self ->
  (is_ok (fst (TemporalCNN.forward x self)) = true
   <-> exists b T, shape x = [b; TemporalCNN.input_size self; T] /\ 4 <= T).
Proof.
  intros Hc. split.
  - intros Hok.
    destruct (shape x) as [| b [| ch [| T [| d3 rest]]]] eqn:Hs.
    1, 2, 5:
      (exfalso; revert Hok;
       destruct (configured_layers self Hc)
         as (w1 & b1 & bn1 & w2 & b2 & bn2 & Hl & _);
       unfold TemporalCNN.forward, zoom; rewrite Hl;
       cbn [Sequential.forward layer_forward];
       rewrite conv_other_rank by (rewrite Hs; cbn; lia);
       discriminate).
    + rewrite (extractor_unbatched_fails self x b ch Hc Hs) in Hok.
      discriminate Hok.
    + exists b, T.
      destruct (Nat.eq_dec ch (TemporalCNN.input_size self)) as [-> | Hne].
      * split; [reflexivity |].
        destruct (Nat.le_gt_cases 4 T) as [H4 | H4]; [exact H4 |].
        destruct (extractor_too_short self x b T Hc Hs H4) as (e & E & _).
        rewrite E in Hok. discriminate Hok.
      * rewrite (extractor_wrong_channels self x b ch T Hc Hs Hne) in Hok.
        discriminate Hok.
  - intros (b & T & Hs & HT).
    destruct (extractor_ok self x b T Hc Hs HT) as (y & self' & E & _).
    now rewrite E.
Qed.

Lemma model_fails_with_extractor self x x1 :
  permute_0_2_1 x = Ok x1 ->
  is_ok (fst (TemporalCNN.forward x1 (LSTMModel.conv_layer self))) = false ->
  is_ok (fst (LSTMModel.forward x self)) = false.
Proof.
  intros E1 Hf.
  destruct (LSTMModel.forward x self) as [[y | e] self'] eqn:E;
    [| reflexivity].
  destruct (forward_trace self x y self' E)
    as (x1' & x2 & cnn' & _ & _ & _ & _ & _ & _ & E1' & E2 & _).
  rewrite E1 in E1'. injection E1' as <-. rewrite E2 in Hf. discriminate Hf.
Qed.

(** The inputs the model gets through. *)
Lemma model_accepts self x :
  LSTMModel.configured self ->
  (is_ok (fst (LSTMModel.forward x self)) = true
   <-> exists b T, shape x = [b; T; LSTMModel.input_size self] /\ 4 <= T).
Proof.
  intros Hc. split.
  - intros Hok.
    destruct (permute_0_2_1 x) as [x1 | e] eqn:E1.
    + destruct (permute_0_2_1_inv x x1 E1) as (b & T & c & Hs & Hs1 & _).
      destruct (is_ok (fst (TemporalCNN.forward x1 (LSTMModel.conv_layer self))))
        eqn:Hex.
      * apply (extractor_accepts _ x1 (LSTMModel.cfg_conv Hc)) in Hex.
        destruct Hex as (b' & T' & Hs1' & HT).
        rewrite Hs1 in Hs1'. injection Hs1' as <- -> <-.
        exists b, T. rewrite Hs, (LSTMModel.cfg_conv_input Hc). now split.
      * rewrite (model_fails_with_extractor self x x1 E1 Hex) in Hok.
        discriminate Hok.
    + revert Hok. unfold LSTMModel.forward, bind, call. rewrite E1.
      discriminate.
  - intros (b & T & Hs & HT).
    destruct (model_forward_ok self x b T Hc Hs HT) as (y & self' & E & _).
    now rewrite E.
Qed.

(** ** Claims about what [forward] returns *)

(** C5: the tensor [LSTMModel.forward] returns is the final linear layer
    applied to the attention output of this very call (the attention block
    on the recurrent stage on the permuted result of the extractor on the
    permuted argument): entry [[i, t, v]] is the affine combination, with
    row [v] of the 256-column weight matrix, of the attention output at the
    same batch element and timestep, and nothing (no softmax) is applied
    to it afterwards. *)
Theorem forward_returns_logits self x y self' :
  LSTMModel.configured self ->
  LSTMModel.forward x self = (Ok y, self') ->
  exists b T x1 x2 cnn' x3 o h_n c_n a w,
    shape x = [b; T; LSTMModel.input_size self]
    /\ permute_0_2_1 x = Ok x1
    /\ TemporalCNN.forward x1 (LSTMModel.conv_layer self) = (Ok x2, cnn')
    /\ permute_0_2_1 x2 = Ok x3
    /\ LSTM.forward (LSTMModel.lstm_layer self) x3 = Ok (o, (h_n, c_n))
    /\ SelfAttention.forward (LSTMModel.attention self) o = Ok (a, w)
    /\ shape a = [b; T / 4; 256]
    /\ shape y = [b; T / 4; LSTMModel.output_size self]
    /\ forall i t v,
         at3 y i t v
         = (sum_n 256
              (fun k => at3 a i t k
                        * Linear.weight (LSTMModel.linear_layer self) v k)
            + Linear.bias (LSTMModel.linear_layer self) v)%R.
Proof.
  intros Hc H.
  assert (Hok : is_ok (fst (LSTMModel.forward x self)) = true)
    by (now rewrite H).
  apply (model_accepts self x Hc) in Hok. destruct Hok as (b & T & Hs & HT).
  destruct (model_forward_ok self x b T Hc Hs HT) as (y' & s' & E' & Sy).
  rewrite H in E'. injection E' as <- <-.
  rewrite Nat.Div0.div_div in Sy. change (2 * 2) with 4 in Sy.
  destruct (forward_trace self x y self' H)
    as (x1 & x2 & cnn' & x3 & o & h_n & c_n & a & w
        & E1 & E2 & E3 & E4 & E5 & E6 & _).
  destruct (linear_inv _ a y E6) as (b' & n & Sa & Sy' & Hy).
  rewrite (LSTMModel.cfg_linear_in Hc) in Sa, Hy.
  rewrite Sy in Sy'. injection Sy' as <- <- _.
  exists b, T, x1, x2, cnn', x3, o, h_n, c_n, a, w.
  repeat split; assumption.
Qed.

Lemma forward_returns_logits_witness :
  LSTMModel.configured model_29_8
  /\ exists y self',
       LSTMModel.forward (zeros [2; 16; 8]) model_29_8 = (Ok y, self')
       /\ exists b T x1 x2 cnn' x3 o h_n c_n a w,
            shape (zeros [2; 16; 8]) = [b; T; LSTMModel.input_size model_29_8]
            /\ permute_0_2_1 (zeros [2; 16; 8]) = Ok x1
            /\ TemporalCNN.forward x1 (LSTMModel.conv_layer model_29_8)
               = (Ok x2, cnn')
            /\ permute_0_2_1 x2 = Ok x3
            /\ LSTM.forward (LSTMModel.lstm_layer model_29_8) x3
               = Ok (o, (h_n, c_n))
            /\ SelfAttention.forward (LSTMModel.attention model_29_8) o
               = Ok (a, w)
            /\ shape a = [b; T / 4; 256]
            /\ shape y = [b; T / 4; LSTMModel.output_size model_29_8]
            /\ forall i t v,
                 at3 y i t v
                 = (sum_n 256
                      (fun k =>
                         at3 a i t k
                         * Linear.weight (LSTMModel.linear_layer model_29_8) v k)
                    + Linear.bias (LSTMModel.linear_layer model_29_8) v)%R.
Proof.
  assert (Hc : LSTMModel.configured model_29_8) by apply init_configured.
  split; [exact Hc |].
  destruct (model_forward_ok model_29_8 (zeros [2; 16; 8]) 2 16 Hc eq_refl)
    as (y & self' & E & _); [lia |].
  exists y, self'. split; [exact E |].
  exact (forward_returns_logits model_29_8 (zeros [2; 16; 8]) y self' Hc E).
Defined.

(** The logits are not a probability vector in general: with a zero
    projection matrix and bias 5 every entry of the result is 5. *)
Lemma logits_not_normalised :
  exists y self',
    LSTMModel.forward (zeros [2; 16; 8]) biased_model = (Ok y, self')
    /\ forall i t v, at3 y i t v = 5%R.
Proof.
  destruct (model_forward_ok biased_model (zeros [2; 16; 8]) 2 16
              (init_configured _ _ _) eq_refl) as (y & self' & E & _); [lia |].
  exists y, self'. split; [exact E |].
  destruct (forward_trace _ _ _ _ E)
    as (x1 & x2 & cnn' & x3 & o & h_n & c_n & a & w
        & _ & _ & _ & _ & _ & E6 & _).
  destruct (linear_inv _ a y E6) as (b & n & _ & _ & Hy).
  intros i t v. rewrite Hy. cbn [biased_model LSTMModel.init
    LSTMModel.linear_layer Linear.in_features Linear.weight Linear.bias
    LSTMModel.linear_weight LSTMModel.linear_bias].
  rewrite sum_n_zero; [apply Rplus_0_l |].
  intros k. apply Rmult_0_r.
Qed.

(** C9: [LSTMModel.forward] first applies [permute(0, 2, 1)] to its
    argument, whatever it is, and fails with that call's error, the model
    untouched, if it fails.  Otherwise it calls the extractor on the
    permuted tensor: if the extractor raises, [forward] raises the same
    error and keeps the extractor as that call left it; if it returns,
    [forward] permutes its result back, hands it to the recurrent stage and
    returns.  Hence on an input of shape [[b; T; c]] the axis the first
    convolution reads as channels is the last one, and the call succeeds
    exactly when [c = input_size] and [T >= 4]. *)
Theorem forward_permutes_first self x :
  LSTMModel.configured self ->
  match permute_0_2_1 x with
  | Err e => LSTMModel.forward x self = (Err e, self)
  | Ok x1 =>
      (forall b T c,
          shape x = [b; T; c] ->
          shape x1 = [b; c; T]
          /\ (forall i t k, at3 x1 i k t = at3 x i t k)
          /\ (is_ok (fst (LSTMModel.forward x self)) = true
              <-> c = LSTMModel.input_size self /\ 4 <= T))
      /\ match TemporalCNN.forward x1 (LSTMModel.conv_layer self) with
         | (Err e, cnn') =>
             LSTMModel.forward x self
             = (Err e, LSTMModel.set_conv_layer cnn' self)
         | (Ok x2, cnn') =>
             exists x3 o hc a w y,
               permute_0_2_1 x2 = Ok x3
               /\ (forall i t k, at3 x3 i t k = at3 x2 i k t)
               /\ LSTM.forward (LSTMModel.lstm_layer self) x3 = Ok (o, hc)
               /\ SelfAttention.forward (LSTMModel.attention self) o
                  = Ok (a, w)
               /\ Linear.forward (LSTMModel.linear_layer self) a = Ok y
               /\ LSTMModel.forward x self
                  = (Ok y, LSTMModel.set_conv_layer cnn' self)
         end
  end.
Proof.
  intros Hc. destruct (permute_0_2_1 x) as [x1 | e] eqn:E1.
  2: { unfold LSTMModel.forward, bind, call. now rewrite E1. }
  destruct (permute_0_2_1_inv x x1 E1) as (d0 & d1 & d2 & Sx & Sx1 & Hx1).
  split.
  - intros b T c Hs. rewrite Hs in Sx. injection Sx as <- <- <-.
    split; [exact Sx1 |]. split; [intros i t k; apply Hx1 |].
    rewrite (model_accepts self x Hc). split.
    + intros (b' & T' & Hs' & HT). rewrite Hs in Hs'.
      injection Hs' as _ <- <-. now split.
    + intros (-> & HT). now exists b, T.
  - destruct (TemporalCNN.forward x1 (LSTMModel.conv_layer self))
      as [[x2 | e] cnn'] eqn:E2.
    + assert (Hex : is_ok (fst (TemporalCNN.forward x1
                                  (LSTMModel.conv_layer self))) = true)
        by (now rewrite E2).
      apply (extractor_accepts _ x1 (LSTMModel.cfg_conv Hc)) in Hex.
      destruct Hex as (b & T & Hs1 & HT).
      rewrite Sx1 in Hs1. injection Hs1 as <- Hc2 <-.
      rewrite (LSTMModel.cfg_conv_input Hc) in Hc2. subst d2.
      destruct (model_forward_ok self x d0 d1 Hc Sx HT)
        as (y & self' & E & _).
      destruct (forward_trace self x y self' E)
        as (x1' & x2' & cnn2 & x3 & o & h_n & c_n & a & w
            & E1' & E2' & E3 & E4 & E5 & E6 & ->).
      rewrite E1 in E1'. injection E1' as <-.
      rewrite E2 in E2'. injection E2' as <- <-.
      destruct (permute_0_2_1_inv x2 x3 E3) as (? & ? & ? & _ & _ & Hx3).
      exists x3, o, (h_n, c_n), a, w, y. repeat split; assumption.
    + unfold LSTMModel.forward, bind, call, zoom, ret.
      now rewrite E1, E2.
Qed.

Lemma forward_permutes_first_witness :
  LSTMModel.configured model_29_8
  /\ is_ok (fst (LSTMModel.forward (zeros [2; 16; 8]) model_29_8)) = true
  /\ match permute_0_2_1 (zeros [2; 16; 8]) with
     | Err e =>
         LSTMModel.forward (zeros [2; 16; 8]) model_29_8 = (Err e, model_29_8)
     | Ok x1 =>
         (forall b T c,
             shape (zeros [2; 16; 8]) = [b; T; c] ->
             shape x1 = [b; c; T]
             /\ (forall i t k, at3 x1 i k t = at3 (zeros [2; 16; 8]) i t k)
             /\ (is_ok (fst (LSTMModel.forward (zeros [2; 16; 8]) model_29_8))
                 = true
                 <-> c = LSTMModel.input_size model_29_8 /\ 4 <= T))
         /\ match TemporalCNN.forward x1 (LSTMModel.conv_layer model_29_8) with
            | (Err e, cnn') =>
                LSTMModel.forward (zeros [2; 16; 8]) model_29_8
                = (Err e, LSTMModel.set_conv_layer cnn' model_29_8)
            | (Ok x2, cnn') =>
                exists x3 o hc a w y,
                  permute_0_2_1 x2 = Ok x3
                  /\ (forall i t k, at3 x3 i t k = at3 x2 i k t)
                  /\ LSTM.forward (LSTMModel.lstm_layer model_29_8) x3
                     = Ok (o, hc)
                  /\ SelfAttention.forward (LSTMModel.attention model_29_8) o
                     = Ok (a, w)
                  /\ Linear.forward (LSTMModel.linear_layer model_29_8) a
                     = Ok y
                  /\ LSTMModel.forward (zeros [2; 16; 8]) model_29_8
                     = (Ok y, LSTMModel.set_conv_layer cnn' model_29_8)
            end
     end.
Proof.
  assert (Hc : LSTMModel.configured model_29_8) by apply init_configured.
  pose proof (forward_permutes_first model_29_8 (zeros [2; 16; 8]) Hc) as H.
  split; [exact Hc |]. split; [| exact H].
  cbn [permute_0_2_1 zeros shape] in H. destruct H as [H _].
  destruct (H 2 16 8 eq_refl) as (_ & _ & Hiff).
  apply Hiff. split; [reflexivity | lia].
Defined.

(** C10: a successful [LSTMModel.forward] returns one tensor, the result
    of the linear layer on the first component of what the attention block
    returned; the attention weights and the final hidden and cell states
    of the recurrent stage appear in neither the returned tensor nor the
    model left behind, which is the one the extractor left. *)
Theorem forward_discards_side_results self x y self' :
  LSTMModel.forward x self = (Ok y, self') ->
  exists x1 x2 cnn' x3 o h_n c_n a w,
    permute_0_2_1 x = Ok x1
    /\ TemporalCNN.forward x1 (LSTMModel.conv_layer self) = (Ok x2, cnn')
    /\ permute_0_2_1 x2 = Ok x3
    /\ LSTM.forward (LSTMModel.lstm_layer self) x3 = Ok (o, (h_n, c_n))
    /\ SelfAttention.forward (LSTMModel.attention self) o = Ok (a, w)
    /\ Linear.forward (LSTMModel.linear_layer self) a = Ok y
    /\ self' = LSTMModel.set_conv_layer cnn' self.
Proof. apply forward_trace. Qed.

Lemma forward_discards_side_results_witness :
  exists y self',
    LSTMModel.forward (zeros [2; 16; 8]) model_29_8 = (Ok y, self')
    /\ exists x1 x2 cnn' x3 o h_n c_n a w,
         permute_0_2_1 (zeros [2; 16; 8]) = Ok x1
         /\ TemporalCNN.forward x1 (LSTMModel.conv_layer model_29_8)
            = (Ok x2, cnn')
         /\ permute_0_2_1 x2 = Ok x3
         /\ LSTM.forward (LSTMModel.lstm_layer model_29_8) x3
            = Ok (o, (h_n, c_n))
         /\ SelfAttention.forward (LSTMModel.attention model_29_8) o
            = Ok (a, w)
         /\ Linear.forward (LSTMModel.linear_layer model_29_8) a = Ok y
         /\ self' = LSTMModel.set_conv_layer cnn' model_29_8.
Proof.
  destruct (model_forward_ok model_29_8 (zeros [2; 16; 8]) 2 16
              (init_configured _ _ _) eq_refl) as (y & self' & E & _); [lia |].
  exists y, self'. split; [exact E |].
  exact (forward_discards_side_results model_29_8 (zeros [2; 16; 8]) y self' E).
Defined.

(** * Further properties *)

(** ** The inputs [forward] accepts *)

(** X1: [TemporalCNN.forward] returns exactly on the inputs of shape
    [[b; input_size; T]] with at least four steps; on every other input,
    an unbatched [[C; L]] sequence included, it raises. *)
Theorem extractor_domain self x :
  TemporalCNN.configured self ->
  (is_ok (fst (TemporalCNN.forward x self)) = true
   <-> exists b T, shape x = [b; TemporalCNN.input_size self; T] /\ 4 <= T).
Proof. apply extractor_accepts. Qed.

Lemma extractor_domain_witness :
  TemporalCNN.configured extractor_8
  /\ (is_ok (fst (TemporalCNN.forward (zeros [2; 8; 16]) extractor_8)) = true
      <-> exists b T,
            shape (zeros [2; 8; 16])
            = [b; TemporalCNN.input_size extractor_8; T] /\ 4 <= T).
Proof.
  assert (Hc : TemporalCNN.configured extractor_8)
    by apply init_extractor_configured.
  split; [exact Hc |].
  exact (extractor_domain extractor_8 (zeros [2; 8; 16]) Hc).
Defined.

(** X2: [LSTMModel.forward] returns exactly on the inputs of shape
    [[b; T; input_size]] with at least four steps, whatever the mode; on
    every other input it raises. *)
Theorem forward_domain self x :
  LSTMModel.configured self ->
  (is_ok (fst (LSTMModel.forward x self)) = true
   <-> exists b T, shape x = [b; T; LSTMModel.input_size self] /\ 4 <= T).
Proof. apply model_accepts. Qed.

Lemma forward_domain_witness :
  LSTMModel.configured model_29_8
  /\ (is_ok (fst (LSTMModel.forward (zeros [2; 16; 8]) model_29_8)) = true
      <-> exists b T,
            shape (zeros [2; 16; 8])
            = [b; T; LSTMModel.input_size model_29_8] /\ 4 <= T).
Proof.
  assert (Hc : LSTMModel.configured model_29_8) by apply init_configured.
  split; [exact Hc |].
  exact (forward_domain model_29_8 (zeros [2; 16; 8]) Hc).
Defined.



(** X4: [SelfAttention.forward] returns exactly on the inputs of shape
    [[b; n; num_features]], the empty sequence [n = 0] included; when the
    last axis has another length the key projection raises. *)
Theorem attention_domain self x :
  SelfAttention.configured self ->
  (is_ok (SelfAttention.forward self x) = true
   <-> exists b n, shape x = [b; n; SelfAttention.num_features self])
  /\ (forall b n f,
        shape x = [b; n; f] -> f <> SelfAttention.num_features self ->
        SelfAttention.forward self x
        = Err (FeatureMismatch (SelfAttention.num_features self) f)).
Proof.
  intros Hc. pose proof Hc as ((Hki & _) & _). split; [split |].
  - intros Hok. unfold SelfAttention.forward in Hok.
    destruct (Linear.forward (SelfAttention.key_matrix self) x)
      as [key | e] eqn:Ek; [| discriminate Hok].
    destruct (linear_inv _ x key Ek) as (b & n & Hs & _).
    exists b, n. now rewrite <- Hki.
  - intros (b & n & Hs).
    now rewrite (attention_forward_eq self x b n Hc Hs).
  - intros b n f Hs Hne. unfold SelfAttention.forward, Linear.forward at 1.
    rewrite Hs, Hki.
    destruct (Nat.eqb_spec f (SelfAttention.num_features self));
      [contradiction | reflexivity].
Qed.

Lemma attention_domain_witness :
  SelfAttention.configured attention_256
  /\ (is_ok (SelfAttention.forward attention_256 (zeros [2; 0; 256])) = true
      <-> exists b n,
            shape (zeros [2; 0; 256])
            = [b; n; SelfAttention.num_features attention_256])
  /\ (shape (zeros [2; 4; 8]) = [2; 4; 8]
      /\ 8 <> SelfAttention.num_features attention_256
      /\ SelfAttention.forward attention_256 (zeros [2; 4; 8])
         = Err (FeatureMismatch 256 8)).
Proof.
  assert (Hc : SelfAttention.configured attention_256)
    by apply init_attention_configured.
  assert (Hne : 8 <> SelfAttention.num_features attention_256)
    by (cbn; lia).
  split; [exact Hc |]. split.
  - exact (proj1 (attention_domain attention_256 (zeros [2; 0; 256]) Hc)).
  - split; [reflexivity |]. split; [exact Hne |].
    exact (proj2 (attention_domain attention_256 (zeros [2; 4; 8]) Hc)
             2 4 8 eq_refl Hne).
Defined.

(** ** Invariants of the model *)

Lemma train_kinds mode layers :
  map kind (map (layer_train mode) layers) = map kind layers.
Proof.
  induction layers as [| [c | bn | | p] rest IH]; cbn; now rewrite ?IH.
Qed.

Lemma forward_keeps_configured self x :
  LSTMModel.configured self ->
  LSTMModel.configured (snd (LSTMModel.forward x self))
  /\ LSTMModel.output_size (snd (LSTMModel.forward x self))
     = LSTMModel.output_size self
  /\ LSTMModel.input_size (snd (LSTMModel.forward x self))
     = LSTMModel.input_size self.
Proof.
  intros Hc. rewrite forward_state.
  destruct (permute_0_2_1 x) as [x1 | e]; [| split; [exact Hc | now split]].
  split; [| now split].
  destruct Hc as [H1 H2 H3 H4 H5 H6 H7 H8 H9 H10 H11].
  constructor; cbn; try assumption.
  - unfold TemporalCNN.configured in *. rewrite extractor_state. cbn.
    now rewrite sequential_forward_kinds.
  - now rewrite extractor_state.
Qed.

Lemma train_keeps_configured self mode :
  LSTMModel.configured self ->
  LSTMModel.configured (LSTMModel.train mode self).
Proof.
  intros [H1 H2 H3 H4 H5 H6 H7 H8 H9 H10 H11].
  constructor; cbn; try assumption.
  unfold TemporalCNN.configured in *. cbn. now rewrite train_kinds.
Qed.

(** X5: everything [__init__] fixes (the eight layers of the extractor
    and their sizes, the sizes of the recurrent stage, of the attention
    block and of the final layer) still holds of a model after any
    sequence of [forward], [train] and [eval] calls, failed calls
    included. *)
Theorem reachable_configured output_size input_size self :
  reachable output_size input_size self ->
  LSTMModel.configured self
  /\ LSTMModel.output_size self = output_size
  /\ LSTMModel.input_size self = input_size.
Proof.
  induction 1 as [w | self x _ (Hc & Ho & Hi) | self mode _ (Hc & Ho & Hi)].
  - split; [apply init_configured | now split].
  - destruct (forward_keeps_configured self x Hc) as (Hc' & Ho' & Hi').
    split; [exact Hc' |]. split; congruence.
  - split; [now apply train_keeps_configured | now split].
Qed.

Lemma reachable_configured_witness :
  reachable 29 8
    (snd (LSTMModel.forward (zeros [2; 2; 8]) (LSTMModel.eval model_29_8)))
  /\ LSTMModel.configured
       (snd (LSTMModel.forward (zeros [2; 2; 8]) (LSTMModel.eval model_29_8)))
  /\ LSTMModel.output_size
       (snd (LSTMModel.forward (zeros [2; 2; 8]) (LSTMModel.eval model_29_8)))
     = 29
  /\ LSTMModel.input_size
       (snd (LSTMModel.forward (zeros [2; 2; 8]) (LSTMModel.eval model_29_8)))
     = 8.
Proof.
  assert (Hr : reachable 29 8
                 (snd (LSTMModel.forward (zeros [2; 2; 8])
                         (LSTMModel.eval model_29_8)))).
  { apply reach_forward. apply reach_train. apply reach_init. }
  split; [exact Hr |].
  exact (reachable_configured 29 8 _ Hr).
Defined.

(** ** The batch counters *)

Lemma batchnorm_forward_counter x bn y bn' :
  BatchNorm1d.forward x bn = (Ok y, bn') ->
  BatchNorm1d.training bn = true ->
  BatchNorm1d.num_batches_tracked bn'
  = S (BatchNorm1d.num_batches_tracked bn).
Proof.
  intros H Ht. rewrite (batchnorm_forward_after x bn y bn' H).
  revert H. unfold BatchNorm1d.forward, BatchNorm1d.after_call,
    BatchNorm1d.trained_on.
  rewrite Ht.
  destruct (shape x) as [| b [| ch [| len [| ? ?]]]]; try discriminate;
    intros _; destruct (_ =? 0); reflexivity.
Qed.

Lemma sequential_counters layers :
  forall x y layers',
    Sequential.forward x layers = (Ok y, layers') ->
    forallb layer_in_training layers = true ->
    batches_tracked layers' = map S (batches_tracked layers).
Proof.
  induction layers as [| l rest IH]; intros x y layers' H Ht.
  - cbn in H. now injection H as _ <-.
  - apply sequential_cons_inv in H.
    destruct H as (y1 & l' & rest' & El & Er & ->).
    cbn [forallb] in Ht. apply andb_true_iff in Ht.
    destruct Ht as [Htl Htr]. specialize (IH y1 y rest' Er Htr).
    unfold batches_tracked in *. cbn [flat_map].
    rewrite IH, map_app. f_equal.
    destruct l as [c | bn | | p]; cbn [layer_forward] in El.
    + now injection El as _ <-.
    + destruct (BatchNorm1d.forward x bn) as [r bn1] eqn:E.
      injection El as -> <-. cbn in Htl. cbn [map].
      now rewrite (batchnorm_forward_counter x bn y1 bn1 E Htl).
    + now injection El as _ <-.
    + now injection El as _ <-.
Qed.

(** X6: with every normalisation layer in training mode, a successful
    [forward] advances each [num_batches_tracked] counter by exactly
    one. *)
Theorem forward_counts_calls self x y self' :
  model_in_training self ->
  LSTMModel.forward x self = (Ok y, self') ->
  batches_tracked (TemporalCNN.conv_layers (LSTMModel.conv_layer self'))
  = map S (batches_tracked
             (TemporalCNN.conv_layers (LSTMModel.conv_layer self))).
Proof.
  intros Ht H.
  destruct (forward_trace self x y self' H)
    as (x1 & x2 & cnn' & _ & _ & _ & _ & _ & _ & _ & E2 & _ & _ & _ & _ & ->).
  cbn [LSTMModel.conv_layer LSTMModel.set_conv_layer].
  unfold TemporalCNN.forward, zoom in E2.
  destruct (Sequential.forward x1
              (TemporalCNN.conv_layers (LSTMModel.conv_layer self)))
    as [r layers'] eqn:Es.
  injection E2 as -> <-.
  cbn [TemporalCNN.conv_layers TemporalCNN.set_conv_layers].
  exact (sequential_counters _ x1 x2 layers' Es Ht).
Qed.

Lemma forward_counts_calls_witness :
  model_in_training model_29_8
  /\ exists y self',
       LSTMModel.forward (zeros [2; 16; 8]) model_29_8 = (Ok y, self')
       /\ batches_tracked
            (TemporalCNN.conv_layers (LSTMModel.conv_layer self'))
          = map S (batches_tracked
                     (TemporalCNN.conv_layers
                        (LSTMModel.conv_layer model_29_8))).
Proof.
  assert (Ht : model_in_training model_29_8) by reflexivity.
  split; [exact Ht |].
  destruct (model_forward_ok model_29_8 (zeros [2; 16; 8]) 2 16
              (init_configured _ _ _) eq_refl) as (y & self' & E & _); [lia |].
  exists y, self'. split; [exact E |].
  exact (forward_counts_calls model_29_8 (zeros [2; 16; 8]) y self' Ht E).
Defined.

(** X7: a call that raises does not roll anything back.  In training mode
    a sequence of two or three steps gets through the first block and
    fails in the second, and both counters have advanced by then. *)
Theorem failed_forward_keeps_updates self x b T :
  LSTMModel.configured self ->
  model_in_training self ->
  shape x = [b; T; LSTMModel.input_size self] ->
  2 <= T < 4 ->
  is_ok (fst (LSTMModel.forward x self)) = false
  /\ batches_tracked
       (TemporalCNN.conv_layers
          (LSTMModel.conv_layer (snd (LSTMModel.forward x self))))
     = map S (batches_tracked
                (TemporalCNN.conv_layers (LSTMModel.conv_layer self))).
Proof.
  intros Hc Ht Hs HT.
  destruct (configured_layers _ (LSTMModel.cfg_conv Hc))
    as (w1 & b1 & bn1 & w2 & b2 & bn2 & Hl & Hn1 & Hn2).
  pose proof (permute_0_2_1_ok x b T _ Hs) as E1.
  destruct (extractor_two_or_three (LSTMModel.conv_layer self)
              (tensor3 b (LSTMModel.input_size self) T
                 (fun i j k => at3 x i k j))
              b T w1 b1 bn1 w2 b2 bn2 Hl Hn1 Hn2)
    as (e & bn1' & bn2' & E & _ & C1 & C2);
    [now rewrite (LSTMModel.cfg_conv_input Hc) | exact HT |].
  split.
  - apply (model_fails_with_extractor self x _ E1). now rewrite E.
  - rewrite forward_state, E1, E.
    unfold model_in_training, extractor_in_training in Ht.
    rewrite Hl in Ht |- *. cbn in Ht.
    apply andb_true_iff in Ht. destruct Ht as [Ht1 Ht2].
    apply andb_true_iff in Ht2. destruct Ht2 as [Ht2 _].
    cbn. now rewrite (C1 Ht1), (C2 Ht2).
Qed.

Lemma failed_forward_keeps_updates_witness :
  LSTMModel.configured model_29_8
  /\ model_in_training model_29_8
  /\ shape (zeros [2; 3; 8]) = [2; 3; LSTMModel.input_size model_29_8]
  /\ 2 <= 3 < 4
  /\ is_ok (fst (LSTMModel.forward (zeros [2; 3; 8]) model_29_8)) = false
  /\ batches_tracked
       (TemporalCNN.conv_layers
          (LSTMModel.conv_layer
             (snd (LSTMModel.forward (zeros [2; 3; 8]) model_29_8))))
     = map S (batches_tracked
                (TemporalCNN.conv_layers (LSTMModel.conv_layer model_29_8))).
Proof.
  assert (Hc : LSTMModel.configured model_29_8) by apply init_configured.
  assert (Ht : model_in_training model_29_8) by reflexivity.
  assert (HT : 2 <= 3 < 4) by lia.
  split; [exact Hc |]. split; [exact Ht |]. split; [reflexivity |].
  split; [exact HT |].
  exact (failed_forward_keeps_updates model_29_8 (zeros [2; 3; 8]) 2 3
           Hc Ht eq_refl HT).
Defined.

(** ** Training mode and the running statistics *)

Lemma layer_training_result x l l2 :
  layer_frame l l2 -> layer_in_training l = true ->
  fst (layer_forward x l) = fst (layer_forward x l2).
Proof.
  intros Hf Ht.
  destruct l as [c | bn | | p]; cbn in Hf; subst; try reflexivity.
  destruct l2 as [c2 | bn2 | | p2]; cbn in Hf; try discriminate Hf.
  destruct bn as [n e m w bi rm rv nb tr], bn2 as [n2 e2 m2 w2 bi2 rm2 rv2 nb2 tr2].
  destruct Hf as (Hn & He & Hm & Hw & Hb & Htr). cbn in *. subst.
  unfold BatchNorm1d.forward, BatchNorm1d.batched. cbn.
  destruct (shape x) as [| b [| ch [| len [| ? ?]]]]; try reflexivity.
  - destruct (b * 1 =? 1); [reflexivity |].
    destruct (b * ch * 1 =? 0); [reflexivity |].
    destruct (negb (ch =? n)); reflexivity.
  - destruct (b * len =? 1); [reflexivity |].
    destruct (b * ch * len =? 0); [reflexivity |].
    destruct (negb (ch =? n)); reflexivity.
Qed.

Lemma sequential_training_result layers layers2 :
  Forall2 layer_frame layers layers2 ->
  forallb layer_in_training layers = true ->
  forall x,
    fst (Sequential.forward x layers) = fst (Sequential.forward x layers2).
Proof.
  induction 1 as [| l l2 rest rest2 Hl _ IH]; [reflexivity |].
  cbn [forallb]. intros Ht x. apply andb_true_iff in Ht.
  destruct Ht as [Htl Htr]. rewrite !sequential_forward_cons.
  pose proof (layer_training_result x l l2 Hl Htl) as E.
  destruct (layer_forward x l) as [[y | e] l'],
           (layer_forward x l2) as [[y2 | e2] l2']; cbn [fst] in E;
    try discriminate E.
  - injection E as <-. specialize (IH Htr y).
    destruct (Sequential.forward y rest), (Sequential.forward y rest2).
    exact IH.
  - exact E.
Qed.

Lemma forward_result_congr self self2 x :
  LSTMModel.lstm_layer self2 = LSTMModel.lstm_layer self ->
  LSTMModel.attention self2 = LSTMModel.attention self ->
  LSTMModel.linear_layer self2 = LSTMModel.linear_layer self ->
  (forall x1,
      fst (TemporalCNN.forward x1 (LSTMModel.conv_layer self2))
      = fst (TemporalCNN.forward x1 (LSTMModel.conv_layer self))) ->
  fst (LSTMModel.forward x self2) = fst (LSTMModel.forward x self).
Proof.
  intros Hl Ha Hp Hx.
  unfold LSTMModel.forward, bind, call, zoom, ret.
  destruct (permute_0_2_1 x) as [x1 | e]; [| reflexivity].
  specialize (Hx x1).
  destruct (TemporalCNN.forward x1 (LSTMModel.conv_layer self2))
    as [[y2 | e2] c2],
    (TemporalCNN.forward x1 (LSTMModel.conv_layer self)) as [[y | e] c];
    cbn [fst] in Hx; try discriminate Hx; [| exact Hx].
  injection Hx as ->.
  destruct (permute_0_2_1 y) as [x3 | e]; [| reflexivity].
  model_attrs. rewrite Hl.
  destruct (LSTM.forward (LSTMModel.lstm_layer self) x3)
    as [[o [h_n c_n]] | e]; [| reflexivity].
  model_attrs. rewrite Ha.
  destruct (SelfAttention.forward (LSTMModel.attention self) o)
    as [[a w] | e]; [| reflexivity].
  model_attrs. rewrite Hp.
  destruct (Linear.forward (LSTMModel.linear_layer self) a); reflexivity.
Qed.

Lemma model_forward_frame self x :
  LSTMModel.frame self (snd (LSTMModel.forward x self)).
Proof.
  rewrite forward_state. destruct (permute_0_2_1 x) as [x1 | e].
  - eexists. split; [reflexivity |].
    rewrite extractor_state. split; [reflexivity |].
    apply sequential_forward_frame.
  - exists (LSTMModel.conv_layer self).
    split; [now rewrite set_conv_layer_same |].
    split; [reflexivity |].
    induction (TemporalCNN.conv_layers (LSTMModel.conv_layer self));
      constructor; auto using layer_frame_refl.
Qed.

(** X8: in training mode the result of [forward] does not depend on the
    buffers of the normalisation layers: two models that differ only there
    return the same tensor, or raise the same error, on the same input.
    In particular a second training-mode call on the same input returns
    what the first returned, although the first has changed the model. *)
Theorem training_result_ignores_buffers self self2 x :
  model_in_training self ->
  LSTMModel.frame self self2 ->
  fst (LSTMModel.forward x self2) = fst (LSTMModel.forward x self)
  /\ fst (LSTMModel.forward x (snd (LSTMModel.forward x self)))
     = fst (LSTMModel.forward x self).
Proof.
  intros Ht.
  assert (Hgen : forall s2, LSTMModel.frame self s2 ->
            fst (LSTMModel.forward x s2) = fst (LSTMModel.forward x self)).
  { intros s2 (cnn' & -> & _ & Hf).
    apply forward_result_congr; try reflexivity.
    intros x1. cbn [LSTMModel.conv_layer LSTMModel.set_conv_layer].
    unfold TemporalCNN.forward, zoom.
    pose proof (sequential_training_result _ _ Hf Ht x1) as E.
    destruct (Sequential.forward x1 (TemporalCNN.conv_layers cnn')),
             (Sequential.forward x1
                (TemporalCNN.conv_layers (LSTMModel.conv_layer self))).
    cbn [fst] in *. now symmetry. }
  intros Hf. split; [exact (Hgen self2 Hf) |].
  apply Hgen. apply model_forward_frame.
Qed.

Lemma training_result_ignores_buffers_witness :
  model_in_training model_29_8
  /\ LSTMModel.frame model_29_8
       (snd (LSTMModel.forward (zeros [2; 16; 8]) model_29_8))
  /\ fst (LSTMModel.forward (zeros [2; 8; 8])
            (snd (LSTMModel.forward (zeros [2; 16; 8]) model_29_8)))
     = fst (LSTMModel.forward (zeros [2; 8; 8]) model_29_8)
  /\ fst (LSTMModel.forward (zeros [2; 8; 8])
            (snd (LSTMModel.forward (zeros [2; 8; 8]) model_29_8)))
     = fst (LSTMModel.forward (zeros [2; 8; 8]) model_29_8).
Proof.
  assert (Ht : model_in_training model_29_8) by reflexivity.
  assert (Hf : LSTMModel.frame model_29_8
                 (snd (LSTMModel.forward (zeros [2; 16; 8]) model_29_8)))
    by apply model_forward_frame.
  split; [exact Ht |]. split; [exact Hf |].
  exact (training_result_ignores_buffers model_29_8 _ (zeros [2; 8; 8]) Ht Hf).
Defined.

(** ** Values *)

Lemma max_upto_nonneg k f :
  (forall j, (0 <= f j)%R) -> (0 <= max_upto k f)%R.
Proof.
  intros Hf. induction k as [| k IH]; cbn; [apply Hf |].
  apply Rle_trans with (1 := IH). apply Rmax_l.
Qed.

(** X9: every entry of a tensor returned by [TemporalCNN.forward] is
    non-negative, in either mode: the last two layers are a rectification
    and a max pooling. *)
Theorem extractor_output_nonneg self x y self' :
  TemporalCNN.configured self ->
  TemporalCNN.forward x self = (Ok y, self') ->
  forall i c t, (0 <= at3 y i c t)%R.
Proof.
  intros Hc H.
  destruct (configured_layers self Hc)
    as (w1 & b1 & bn1 & w2 & b2 & bn2 & Hl & _).
  unfold TemporalCNN.forward, zoom in H. rewrite Hl in H.
  destruct (Sequential.forward x _) as [r layers'] eqn:E.
  injection H as -> _.
  do 5 (apply sequential_cons_inv in E;
        destruct E as (? & ? & ? & _ & E & _)).
  apply sequential_cons_inv in E. destruct E as (u & ? & ? & _ & E & _).
  apply sequential_cons_inv in E. destruct E as (z & ? & ? & Er & E & _).
  apply sequential_cons_inv in E. destruct E as (y' & ? & ? & Ep & E & _).
  cbn in E. injection E as <- _.
  cbn in Er. injection Er as <- _.
  cbn [layer_forward] in Ep. injection Ep as Ep _.
  unfold MaxPool1d.forward, MaxPool1d.batched in Ep. rewrite relu_shape in Ep.
  destruct (shape u) as [| b [| ch [| len [| ? ?]]]]; try discriminate Ep.
  - destruct (_ =? 0); [discriminate Ep |].
    cbn [rmap rbind squeeze_0 shape tensor3] in Ep. injection Ep as <-.
    intros i c t. apply Rle_refl.
  - destruct (_ =? 0); [discriminate Ep |]. injection Ep as <-.
    intros i c t. rewrite at3_tensor3.
    change (0 <= max_upto 1 (fun k => at3 (relu u) i c (t * 2 + k)))%R.
    apply max_upto_nonneg. intros j. apply Rmax_l.
Qed.

Lemma extractor_output_nonneg_witness :
  TemporalCNN.configured extractor_8
  /\ exists y self',
       TemporalCNN.forward (zeros [2; 8; 16]) extractor_8 = (Ok y, self')
       /\ forall i c t, (0 <= at3 y i c t)%R.
Proof.
  assert (Hc : TemporalCNN.configured extractor_8)
    by apply init_extractor_configured.
  split; [exact Hc |].
  destruct (extractor_ok extractor_8 (zeros [2; 8; 16]) 2 16 Hc eq_refl)
    as (y & self' & E & _); [lia |].
  exists y, self'. split; [exact E |].
  exact (extractor_output_nonneg extractor_8 (zeros [2; 8; 16]) y self' Hc E).
Defined.

(** ** Batch elements in evaluation mode *)

Lemma conv_sample c x x' y y' i i' :
  Conv1d.forward c x = Ok y -> Conv1d.forward c x' = Ok y' ->
  tl (shape x) = tl (shape x') -> same_sample i i' x x' ->
  tl (shape y) = tl (shape y') /\ same_sample i i' y y'.
Proof.
  unfold Conv1d.forward, Conv1d.batched, same_sample. intros H H' Ht Hs.
  revert H H'.
  destruct (shape x) as [| b [| ch [| len [| ? ?]]]]; try discriminate;
    destruct (shape x') as [| b' [| ch' [| len' [| ? ?]]]];
    try discriminate; try discriminate Ht; cbn [tl] in Ht.
  - injection Ht as <-.
    destruct (negb (b =? _)); [discriminate |].
    destruct (negb (b' =? _)); [intros _; discriminate |].
    destruct (_ <? _); [discriminate |].
    cbn [rmap rbind squeeze_0 shape tensor3].
    intros H H'. injection H as <-. injection H' as <-.
    split; [reflexivity |]. intros j k. reflexivity.
  - injection Ht as <- <-.
    destruct (negb _); [discriminate |].
    destruct (_ <? _); [discriminate |].
    intros H H'. injection H as <-. injection H' as <-.
    split; [reflexivity |]. intros j k. rewrite !at3_tensor3.
    f_equal. apply sum_n_ext. intros ci _. apply sum_n_ext. intros q _.
    f_equal. unfold Conv1d.padded. destruct (_ && _); [apply Hs | reflexivity].
Qed.

Lemma batchnorm_eval_sample bn x x' y y' bn1 bn2 i i' :
  BatchNorm1d.training bn = false ->
  BatchNorm1d.forward x bn = (Ok y, bn1) ->
  BatchNorm1d.forward x' bn = (Ok y', bn2) ->
  tl (shape x) = tl (shape x') -> same_sample i i' x x' ->
  tl (shape y) = tl (shape y') /\ same_sample i i' y y'.
Proof.
  unfold BatchNorm1d.forward, BatchNorm1d.batched, same_sample.
  intros -> H H' Ht Hs. revert H H'.
  destruct (shape x) as [| b [| ch [| len [| ? ?]]]]; try discriminate;
    destruct (shape x') as [| b' [| ch' [| len' [| ? ?]]]];
    try discriminate; try discriminate Ht; cbn [tl] in Ht.
  - injection Ht as <-.
    destruct (b * ch * 1 =? 0), (b' * ch * 1 =? 0),
      (negb (ch =? BatchNorm1d.num_features bn));
      try discriminate; try (intros _; discriminate);
      cbn [rmap rbind squeeze_2 shape tensor3 BatchNorm1d.normalize];
      intros H H'; injection H as <-; injection H' as <-;
      (split; [reflexivity |]; intros j k; reflexivity).
  - injection Ht as <- <-.
    destruct (b * ch * len =? 0), (b' * ch * len =? 0),
      (negb (ch =? BatchNorm1d.num_features bn));
      try discriminate; try (intros _; discriminate);
      intros H H'; injection H as <-; injection H' as <-;
      (split; [reflexivity |]; intros j k; unfold BatchNorm1d.normalize;
       rewrite !at3_tensor3; now rewrite Hs).
Qed.

Lemma relu_sample x x' i i' :
  tl (shape x) = tl (shape x') -> same_sample i i' x x' ->
  tl (shape (relu x)) = tl (shape (relu x'))
  /\ same_sample i i' (relu x) (relu x').
Proof.
  unfold same_sample. intros Ht Hs. split; [exact Ht |].
  intros j k. unfold relu, at3. cbn [data]. f_equal. apply Hs.
Qed.

Lemma max_upto_ext n f g :
  (forall k, f k = g k) -> max_upto n f = max_upto n g.
Proof.
  intros H. induction n as [| n IH]; cbn; [apply H |]. now rewrite IH, H.
Qed.

Lemma pool_sample p x x' y y' i i' :
  MaxPool1d.forward p x = Ok y -> MaxPool1d.forward p x' = Ok y' ->
  tl (shape x) = tl (shape x') -> same_sample i i' x x' ->
  tl (shape y) = tl (shape y') /\ same_sample i i' y y'.
Proof.
  unfold MaxPool1d.forward, MaxPool1d.batched, same_sample.
  intros H H' Ht Hs. revert H H'.
  destruct (shape x) as [| b [| ch [| len [| ? ?]]]]; try discriminate;
    destruct (shape x') as [| b' [| ch' [| len' [| ? ?]]]];
    try discriminate; try discriminate Ht; cbn [tl] in Ht.
  - injection Ht as <-.
    destruct (_ =? 0); [discriminate |].
    cbn [rmap rbind squeeze_0 shape tensor3].
    intros H H'. injection H as <-. injection H' as <-.
    split; [reflexivity |]. intros j k. reflexivity.
  - injection Ht as <- <-.
    destruct (_ =? 0); [discriminate |].
    intros H H'. injection H as <-. injection H' as <-.
    split; [reflexivity |]. intros j k. rewrite !at3_tensor3.
    apply max_upto_ext. intros q. apply Hs.
Qed.

Lemma layer_eval_sample l x x' y y' l1 l2 i i' :
  layer_in_eval l = true ->
  layer_forward x l = (Ok y, l1) -> layer_forward x' l = (Ok y', l2) ->
  tl (shape x) = tl (shape x') -> same_sample i i' x x' ->
  tl (shape y) = tl (shape y') /\ same_sample i i' y y'.
Proof.
  destruct l as [c | bn | | p]; cbn [layer_forward layer_in_eval];
    intros He H H'.
  - injection H as H _. injection H' as H' _. now apply conv_sample with c.
  - apply negb_true_iff in He.
    destruct (BatchNorm1d.forward x bn) as [r b1] eqn:E.
    destruct (BatchNorm1d.forward x' bn) as [r' b2] eqn:E'.
    injection H as -> _. injection H' as -> _.
    now apply batchnorm_eval_sample with bn b1 b2.
  - injection H as <- _. injection H' as <- _. apply relu_sample.
  - injection H as H _. injection H' as H' _. now apply pool_sample with p.
Qed.

Lemma sequential_eval_sample layers i i' :
  forallb layer_in_eval layers = true ->
  forall x x' y y' ls1 ls2,
    Sequential.forward x layers = (Ok y, ls1) ->
    Sequential.forward x' layers = (Ok y', ls2) ->
    tl (shape x) = tl (shape x') -> same_sample i i' x x' ->
    tl (shape y) = tl (shape y') /\ same_sample i i' y y'.
Proof.
  induction layers as [| l rest IH]; intros He x x' y y' ls1 ls2 H H' Ht Hs.
  - cbn in H, H'. injection H as <- _. injection H' as <- _. now split.
  - cbn [forallb] in He. apply andb_true_iff in He. destruct He as [Hl Hr].
    apply sequential_cons_inv in H.
    destruct H as (y1 & l1 & r1 & El & Er & _).
    apply sequential_cons_inv in H'.
    destruct H' as (y1' & l1' & r1' & El' & Er' & _).
    destruct (layer_eval_sample l x x' y1 y1' l1 l1' i i' Hl El El' Ht Hs)
      as [Ht1 Hs1].
    exact (IH Hr y1 y1' y y' r1 r1' Er Er' Ht1 Hs1).
Qed.

Lemma permute_sample x x' y y' i i' :
  permute_0_2_1 x = Ok y -> permute_0_2_1 x' = Ok y' ->
  tl (shape x) = tl (shape x') -> same_sample i i' x x' ->
  tl (shape y) = tl (shape y') /\ same_sample i i' y y'.
Proof.
  unfold permute_0_2_1, same_sample.
  destruct (shape x) as [| b [| ch [| len [| ? ?]]]]; try discriminate.
  destruct (shape x') as [| b' [| ch' [| len' [| ? ?]]]]; try discriminate.
  intros H H' Ht Hs. cbn [tl] in Ht. injection Ht as <- <-.
  injection H as <-. injection H' as <-.
  split; [reflexivity |]. intros j k. rewrite !at3_tensor3. apply Hs.
Qed.

Lemma linear_sample l x x' y y' i i' :
  Linear.forward l x = Ok y -> Linear.forward l x' = Ok y' ->
  tl (shape x) = tl (shape x') -> same_sample i i' x x' ->
  tl (shape y) = tl (shape y') /\ same_sample i i' y y'.
Proof.
  unfold Linear.forward, same_sample.
  destruct (shape x) as [| b [| n [| f [| ? ?]]]]; try discriminate.
  destruct (shape x') as [| b' [| n' [| f' [| ? ?]]]]; try discriminate.
  intros H H' Ht Hs. cbn [tl] in Ht. injection Ht as <- <-. revert H H'.
  destruct (negb _); [discriminate |].
  intros H H'. injection H as <-. injection H' as <-.
  split; [reflexivity |]. intros j k. rewrite !at3_tensor3.
  f_equal. apply sum_n_ext. intros q _. now rewrite Hs.
Qed.

Lemma lstm_sample l x x' o o' hc hc' i i' :
  LSTM.batch_first l = true ->
  LSTM.forward l x = Ok (o, hc) -> LSTM.forward l x' = Ok (o', hc') ->
  tl (shape x) = tl (shape x') -> same_sample i i' x x' ->
  tl (shape o) = tl (shape o') /\ same_sample i i' o o'.
Proof.
  unfold LSTM.forward, same_sample. intros ->.
  destruct (shape x) as [| b [| n [| f [| ? ?]]]]; try discriminate.
  destruct (shape x') as [| b' [| n' [| f' [| ? ?]]]]; try discriminate.
  intros H H' Ht Hs. cbn [tl] in Ht. injection Ht as <- <-. revert H H'.
  destruct (negb _); [discriminate |].
  intros H H'. injection H as <- _. injection H' as <- _.
  split; [reflexivity |]. intros j k. rewrite !at3_tensor3.
  by_sample Hs.
Qed.

Lemma attention_sample self x x' out out' w w' i i' :
  SelfAttention.forward self x = Ok (out, w) ->
  SelfAttention.forward self x' = Ok (out', w') ->
  tl (shape x) = tl (shape x') -> same_sample i i' x x' ->
  (tl (shape out) = tl (shape out') /\ same_sample i i' out out')
  /\ same_sample i i' w w'.
Proof.
  unfold SelfAttention.forward, Linear.forward, same_sample.
  destruct (shape x) as [| b [| n [| f [| ? ?]]]]; try discriminate.
  destruct (shape x') as [| b' [| n' [| f' [| ? ?]]]]; try discriminate.
  intros H H' Ht Hs. cbn [tl] in Ht. injection Ht as <- <-. revert H H'.
  do 3 split_if.
  unfold permute_0_2_1, matmul, softmax_last.
  cbn [shape div_scalar tensor3 rbind].
  rewrite !Nat.eqb_refl. cbn [andb].
  split_if. cbn [shape div_scalar tensor3 rbind].
  rewrite !Nat.eqb_refl. cbn [andb].
  intros H H'. injection H as <- <-. injection H' as <- <-.
  split; [split; [reflexivity |] |]; intros j k; unfold at3;
    cbn [data tensor3 div_scalar]; by_sample Hs.
Qed.

Lemma extractor_eval_sample cnn x x' y y' c1 c2 i i' :
  TemporalCNN.in_eval cnn ->
  TemporalCNN.forward x cnn = (Ok y, c1) ->
  TemporalCNN.forward x' cnn = (Ok y', c2) ->
  tl (shape x) = tl (shape x') -> same_sample i i' x x' ->
  tl (shape y) = tl (shape y') /\ same_sample i i' y y'.
Proof.
  unfold TemporalCNN.forward, zoom. intros He H H'.
  destruct (Sequential.forward x (TemporalCNN.conv_layers cnn))
    as [r ls1] eqn:E.
  destruct (Sequential.forward x' (TemporalCNN.conv_layers cnn))
    as [r' ls2] eqn:E'.
  injection H as -> _. injection H' as -> _.
  exact (sequential_eval_sample _ i i' He x x' y y' ls1 ls2 E E').
Qed.

(** X12: in evaluation mode the batch elements do not interact.  If
    batch element [i] of one input and batch element [i'] of another input
    with the same sequence length hold the same numbers, the logits
    returned for them are the same, whatever else the two batches hold and
    however many elements they have. *)
Theorem eval_batch_elements_independent self x x' y y' s1 s2 i i' :
  LSTMModel.configured self ->
  LSTMModel.in_eval self ->
  LSTMModel.forward x self = (Ok y, s1) ->
  LSTMModel.forward x' self = (Ok y', s2) ->
  tl (shape x) = tl (shape x') ->
  same_sample i i' x x' ->
  same_sample i i' y y'.
Proof.
  intros Hc He H H' Ht Hs.
  destruct (forward_trace self x y s1 H)
    as (x1 & x2 & cnn1 & x3 & o & h_n & c_n & a & w
        & E1 & E2 & E3 & E4 & E5 & E6 & _).
  destruct (forward_trace self x' y' s2 H')
    as (x1' & x2' & cnn2 & x3' & o' & h_n' & c_n' & a' & w'
        & E1' & E2' & E3' & E4' & E5' & E6' & _).
  destruct (permute_sample x x' x1 x1' i i' E1 E1' Ht Hs) as [Ht1 Hs1].
  destruct (extractor_eval_sample _ x1 x1' x2 x2' cnn1 cnn2 i i'
              He E2 E2' Ht1 Hs1) as [Ht2 Hs2].
  destruct (permute_sample x2 x2' x3 x3' i i' E3 E3' Ht2 Hs2) as [Ht3 Hs3].
  destruct (lstm_sample _ x3 x3' o o' _ _ i i'
              (LSTMModel.cfg_lstm_batch_first Hc) E4 E4' Ht3 Hs3)
    as [Ht4 Hs4].
  destruct (attention_sample _ o o' a a' w w' i i' E5 E5' Ht4 Hs4)
    as [[Ht5 Hs5] _].
  exact (proj2 (linear_sample _ a a' y y' i i' E6 E6' Ht5 Hs5)).
Qed.

Lemma eval_batch_elements_independent_witness :
  LSTMModel.configured (LSTMModel.eval model_29_8)
  /\ LSTMModel.in_eval (LSTMModel.eval model_29_8)
  /\ tl (shape (zeros [2; 16; 8])) = tl (shape (zeros [3; 16; 8]))
  /\ same_sample 0 2 (zeros [2; 16; 8]) (zeros [3; 16; 8])
  /\ exists y s1 y' s2,
       LSTMModel.forward (zeros [2; 16; 8]) (LSTMModel.eval model_29_8)
       = (Ok y, s1)
       /\ LSTMModel.forward (zeros [3; 16; 8]) (LSTMModel.eval model_29_8)
          = (Ok y', s2)
       /\ same_sample 0 2 y y'.
Proof.
  assert (Hc : LSTMModel.configured (LSTMModel.eval model_29_8))
    by (apply train_keeps_configured, init_configured).
  assert (He : LSTMModel.in_eval (LSTMModel.eval model_29_8)) by reflexivity.
  assert (Hs : same_sample 0 2 (zeros [2; 16; 8]) (zeros [3; 16; 8]))
    by (intros j k; reflexivity).
  split; [exact Hc |]. split; [exact He |]. split; [reflexivity |].
  split; [exact Hs |].
  destruct (model_forward_ok (LSTMModel.eval model_29_8) (zeros [2; 16; 8])
              2 16 Hc eq_refl) as (y & s1 & E & _); [lia |].
  destruct (model_forward_ok (LSTMModel.eval model_29_8) (zeros [3; 16; 8])
              3 16 Hc eq_refl) as (y' & s2 & E' & _); [lia |].
  exists y, s1, y', s2. split; [exact E |]. split; [exact E' |].
  exact (eval_batch_elements_independent (LSTMModel.eval model_29_8)
           (zeros [2; 16; 8]) (zeros [3; 16; 8]) y y' s1 s2 0 2
           Hc He E E' eq_refl Hs).
Defined.
